(** * The robot framework's error reporter and ServiceNow incident handler

    A shallow embedding of [robot_framework/exceptions.py] and
    [robot_framework/servicenow_handler.py].

    Python values are an inductive type, Python strings are [string]s (one
    [ascii] per character, so a string of the model is a Python [str] whose
    code points are below 256), dictionaries are association lists in
    insertion order (the order [json.dumps] writes them in).  Side effects
    are a trace of events produced by a writer monad that also carries a
    raised exception.  The ticketing REST API is a function from requests to
    replies that may raise or answer with any status, body and parsed JSON.
    The orchestrator connection (process name, constants, credentials,
    logging, queue status) is the external framework object the functions
    receive: its calls return normally, its lookups with the stored value,
    and its writes are recorded as events. *)

From Stdlib Require Import String Ascii List ZArith Bool Lia DecimalString.
Import ListNotations.
Local Open Scope list_scope.
Local Open Scope string_scope.

(** ** Strings *)

Module Str.

(** The double quote and the backslash. *)
Definition dquote : ascii := "034"%char.
Definition backslash : ascii := "092"%char.

Fixpoint contains_char (c : ascii) (s : string) : bool :=
  match s with
  | EmptyString => false
  | String d s' => Ascii.eqb c d || contains_char c s'
  end.

(** Decimal text of an integer, as [str(int)] prints it. *)
Definition of_Z (z : Z) : string := NilZero.string_of_int (Z.to_int z).

Definition hex_digit (n : nat) : ascii :=
  match n with
  | 0 => "0" | 1 => "1" | 2 => "2" | 3 => "3" | 4 => "4"
  | 5 => "5" | 6 => "6" | 7 => "7" | 8 => "8" | 9 => "9"
  | 10 => "a" | 11 => "b" | 12 => "c" | 13 => "d" | 14 => "e"
  | _ => "f"
  end%char.

(** The two lower-case hexadecimal digits of a character code. *)
Definition hex2 (c : ascii) : string :=
  let n := nat_of_ascii c in
  String (hex_digit (n / 16)) (String (hex_digit (n mod 16)) "").

(** Python's slice [s[lo:hi]] with optional, possibly negative bounds. *)
Definition norm_index (len i : Z) : Z :=
  if (i <? 0)%Z then Z.max 0 (i + len) else Z.min i len.

Definition slice (lo hi : option Z) (s : string) : string :=
  let len := Z.of_nat (String.length s) in
  let a := match lo with None => 0%Z | Some i => norm_index len i end in
  let b := match hi with None => len | Some i => norm_index len i end in
  substring (Z.to_nat a) (Z.to_nat (b - a)) s.

End Str.

(** ** Python values *)

(** The values that reach these functions: [None], booleans, integers,
    strings, lists and dictionaries with string keys (what [json] produces
    and consumes; floating-point numbers are left out). *)
#[local] Set Warnings "-register-all".

Inductive PyVal : Type :=
| PyNone
| PyBool (b : bool)
| PyInt (z : Z)
| PyStr (s : string)
| PyList (l : list PyVal)
| PyDict (d : list (string * PyVal)).

Module Py.

Definition type_name (v : PyVal) : string :=
  match v with
  | PyNone => "NoneType"
  | PyBool _ => "bool"
  | PyInt _ => "int"
  | PyStr _ => "str"
  | PyList _ => "list"
  | PyDict _ => "dict"
  end.

(** Truth value, as [if v:] tests it. *)
Definition truthy (v : PyVal) : bool :=
  match v with
  | PyNone => false
  | PyBool b => b
  | PyInt z => negb (z =? 0)%Z
  | PyStr s => negb (s =? "")
  | PyList l => match l with [] => false | _ => true end
  | PyDict d => match d with [] => false | _ => true end
  end.

Fixpoint lookup (k : string) (d : list (string * PyVal)) : option PyVal :=
  match d with
  | [] => None
  | (k', v) :: d' => if k' =? k then Some v else lookup k d'
  end.

(** [a == b]: [bool] is a subclass of [int], so [True == 1]; lists are
    compared element by element, dictionaries key by key whatever their
    order. *)
Fixpoint eqb (a b : PyVal) {struct a} : bool :=
  match a, b with
  | PyNone, PyNone => true
  | PyBool x, PyBool y => Bool.eqb x y
  | PyBool x, PyInt z | PyInt z, PyBool x => (z =? (if x then 1 else 0))%Z
  | PyInt x, PyInt y => (x =? y)%Z
  | PyStr x, PyStr y => (x =? y)
  | PyList l, PyList m =>
      (fix go (l m : list PyVal) : bool :=
         match l, m with
         | [], [] => true
         | x :: l', y :: m' => eqb x y && go l' m'
         | _, _ => false
         end) l m
  | PyDict d, PyDict e =>
      (List.length d =? List.length e)%nat
      && (fix go (d : list (string * PyVal)) : bool :=
            match d with
            | [] => true
            | (k, x) :: d' =>
                match lookup k e with
                | Some y => eqb x y
                | None => false
                end && go d'
            end) d
  | _, _ => false
  end.

(** [repr] of a string: single quotes unless the text has a single quote and
    no double quote; backslash escapes for the quote, the backslash, tab,
    newline and carriage return; [\xhh] for the other unprintable
    characters. *)
Definition unprintable (c : ascii) : bool :=
  let n := nat_of_ascii c in
  ((n <? 32) || (n =? 127) || ((128 <=? n) && (n <=? 160)) || (n =? 173))%nat.

Fixpoint repr_chars (q : ascii) (s : string) : string :=
  match s with
  | EmptyString => ""
  | String c s' =>
      (if Ascii.eqb c q || Ascii.eqb c Str.backslash
       then String Str.backslash (String c "")
       else if Ascii.eqb c "009" then "\t"
       else if Ascii.eqb c "010" then "\n"
       else if Ascii.eqb c "013" then "\r"
       else if unprintable c then "\x" ++ Str.hex2 c
       else String c "") ++ repr_chars q s'
  end.

Definition repr_str (s : string) : string :=
  let q := if Str.contains_char "'" s && negb (Str.contains_char Str.dquote s)
           then Str.dquote else "'"%char in
  String q (repr_chars q s ++ String q "").

Fixpoint repr (v : PyVal) : string :=
  match v with
  | PyNone => "None"
  | PyBool true => "True"
  | PyBool false => "False"
  | PyInt z => Str.of_Z z
  | PyStr s => repr_str s
  | PyList l =>
      "[" ++ (fix items (l : list PyVal) : string :=
                match l with
                | [] => ""
                | x :: l' =>
                    repr x ++ match l' with [] => "" | _ => ", " ++ items l' end
                end) l ++ "]"
  | PyDict d =>
      "{" ++ (fix items (d : list (string * PyVal)) : string :=
                match d with
                | [] => ""
                | (k, x) :: d' =>
                    repr_str k ++ ": " ++ repr x
                    ++ match d' with [] => "" | _ => ", " ++ items d' end
                end) d ++ "}"
  end.

(** [str(v)], which is what an f-string field and [print] write. *)
Definition str (v : PyVal) : string :=
  match v with
  | PyStr s => s
  | _ => repr v
  end.

End Py.

(** ** [json.dumps(v, ensure_ascii=False)] *)

Module Json.

(** One character inside a JSON string: the quote, the backslash and the
    control characters are escaped, everything else is written as it is. *)
Definition escape_char (c : ascii) : string :=
  if Ascii.eqb c Str.dquote then String Str.backslash (String Str.dquote "")
  else if Ascii.eqb c Str.backslash then "\\"
  else if Ascii.eqb c "010" then "\n"
  else if Ascii.eqb c "013" then "\r"
  else if Ascii.eqb c "009" then "\t"
  else if Ascii.eqb c "008" then "\b"
  else if Ascii.eqb c "012" then "\f"
  else if (nat_of_ascii c <? 32)%nat then "\u00" ++ Str.hex2 c
  else String c "".

Fixpoint escape (s : string) : string :=
  match s with
  | EmptyString => ""
  | String c s' => escape_char c ++ escape s'
  end.

Definition encode_basestring (s : string) : string :=
  String Str.dquote (escape s ++ String Str.dquote "").

Fixpoint dumps (v : PyVal) : string :=
  match v with
  | PyNone => "null"
  | PyBool true => "true"
  | PyBool false => "false"
  | PyInt z => Str.of_Z z
  | PyStr s => encode_basestring s
  | PyList l =>
      "[" ++ (fix items (l : list PyVal) : string :=
                match l with
                | [] => ""
                | x :: l' =>
                    dumps x ++ match l' with [] => "" | _ => ", " ++ items l' end
                end) l ++ "]"
  | PyDict d =>
      "{" ++ (fix items (d : list (string * PyVal)) : string :=
                match d with
                | [] => ""
                | (k, x) :: d' =>
                    encode_basestring k ++ ": " ++ dumps x
                    ++ match d' with [] => "" | _ => ", " ++ items d' end
                end) d ++ "}"
  end.

End Json.

(** ** Exceptions and objects *)

(** Classes of exceptions; all of them derive from [Exception]. *)
Inductive ExcClass : Type :=
| BusinessError
| AttributeError
| TypeError
| KeyError
| IndexError
| OtherException (qualname : string).

(** An exception instance: its class and the text [str(e)] gives. *)
Record PyExc : Type := { exc_class : ExcClass; exc_str : string }.

(** What a caller can hand over as [error]: an exception instance, or the
    class object itself. *)
Inductive PyObj : Type :=
| Instance (e : PyExc)
| Class (c : ExcClass).

Module Exc.

Definition class_eqb (a b : ExcClass) : bool :=
  match a, b with
  | BusinessError, BusinessError
  | AttributeError, AttributeError
  | TypeError, TypeError
  | KeyError, KeyError
  | IndexError, IndexError => true
  | OtherException x, OtherException y => x =? y
  | _, _ => false
  end.

Definition qualname (c : ExcClass) : string :=
  match c with
  | BusinessError => "robot_framework.exceptions.BusinessError"
  | AttributeError => "AttributeError"
  | TypeError => "TypeError"
  | KeyError => "KeyError"
  | IndexError => "IndexError"
  | OtherException n => n
  end.

(** [str(error)] *)
Definition str (o : PyObj) : string :=
  match o with
  | Instance e => exc_str e
  | Class c => "<class '" ++ qualname c ++ "'>"
  end.

(** [o != cls] for a class object [cls].  Exceptions do not define [__eq__],
    so the comparison is by identity: an instance is never the class. *)
Definition ne_class (o : PyObj) (cls : ExcClass) : bool :=
  match o with
  | Instance _ => true
  | Class c => negb (class_eqb c cls)
  end.

End Exc.

(** ** Effects *)

Inductive Method : Type := GET | PUT | POST.

(** A call of [requests.get], [requests.put] or [requests.post]. *)
Record Request : Type := {
  method : Method;
  url : string;
  headers : list (string * string);
  auth : string * string;
  json_body : option PyVal
}.

(** [QueueStatus] of the orchestrator. *)
Inductive QueueStatus : Type :=
| NEW | IN_PROGRESS | DONE | DONE_WITH_WARNINGS | FAILED | ABANDONED.

Inductive Event : Type :=
| EvCall (function : string)
| EvPrint (line : string)
| EvLogTrace (msg : string)
| EvLogError (msg : string)
| EvSetQueueElementStatus (id : string) (status : QueueStatus) (msg : string)
| EvSendErrorScreenshot (to : string) (error : PyObj) (process_name : string)
| EvRequest (r : Request).

Inductive outcome (A : Type) : Type :=
| Returns (a : A)
| Raises (e : PyExc).
Arguments Returns {A} a.
Arguments Raises {A} e.

(** A computation: the events it produced, in order, and how it ended. *)
Definition M (A : Type) : Type := list Event * outcome A.

Definition ret {A} (a : A) : M A := ([], Returns a).

Definition bind {A B} (m : M A) (f : A -> M B) : M B :=
  match m with
  | (t, Returns a) => let (t', r) := f a in ((t ++ t')%list, r)
  | (t, Raises e) => (t, Raises e)
  end.

Definition emit (e : Event) : M unit := ([e], Returns tt).

Definition raise {A} (e : PyExc) : M A := ([], Raises e).

(** [try: m  except Exception as e: h e] *)
Definition try_except {A} (m : M A) (h : PyExc -> M A) : M A :=
  match m with
  | (t, Raises e) => let (t', r) := h e in ((t ++ t')%list, r)
  | _ => m
  end.

Notation "x <- m ;; k" := (bind m (fun x => k))
  (at level 61, m at next level, right associativity).
Notation "m ;; k" := (bind m (fun _ => k))
  (at level 61, right associativity).

Definition trace {A} (m : M A) : list Event := fst m.
Definition result {A} (m : M A) : outcome A := snd m.

Definition print (line : string) : M unit := emit (EvPrint line).

(** [d.get(key, default)] on a dictionary *)
Definition dict_get (d : list (string * PyVal)) (key : string)
    (default : PyVal) : PyVal :=
  match Py.lookup key d with Some v => v | None => default end.

(** [obj.get(key, default)] on a value of any type *)
Definition py_get (obj : PyVal) (key : string) (default : PyVal) : M PyVal :=
  match obj with
  | PyDict d => ret (dict_get d key default)
  | _ =>
      raise {| exc_class := AttributeError;
               exc_str := "'" ++ Py.type_name obj
                          ++ "' object has no attribute 'get'" |}
  end.

(** [obj[0]] *)
Definition py_item0 (obj : PyVal) : M PyVal :=
  match obj with
  | PyList (x :: _) => ret x
  | PyList [] =>
      raise {| exc_class := IndexError; exc_str := "list index out of range" |}
  | PyStr (String c _) => ret (PyStr (String c ""))
  | PyStr EmptyString =>
      raise {| exc_class := IndexError;
               exc_str := "string index out of range" |}
  | PyDict _ => raise {| exc_class := KeyError; exc_str := "0" |}
  | _ =>
      raise {| exc_class := TypeError;
               exc_str := "'" ++ Py.type_name obj
                          ++ "' object is not subscriptable" |}
  end.

(** ** The collaborators *)

(** [robot_framework/config.py] is not part of the sources at hand; the
    three constants the functions read from it are parameters. *)
Record Config : Type := {
  ERROR_EMAIL : string;
  MAX_RETRY_COUNT : PyVal;
  SERVICE_NOW_API_PROD_USER : string
}.

Record Credential : Type := { username : string; password : string }.

(** The orchestrator connection as these functions use it: the process name,
    the named constants (their [.value]) and the named credentials. *)
Record OrchestratorConnection : Type := {
  process_name : string;
  get_constant : string -> string;
  get_credential : string -> Credential
}.

Record QueueElement : Type := { id : string }.

(** A reply of the ticketing API: [response.json()] either returns the parsed
    body or raises. *)
Record Response : Type := {
  status_code : Z;
  text : string;
  json : outcome PyVal
}.

Definition log_error (oc : OrchestratorConnection) (msg : string) : M unit :=
  emit (EvLogError msg).

Definition log_trace (oc : OrchestratorConnection) (msg : string) : M unit :=
  emit (EvLogTrace msg).

Definition set_queue_element_status (oc : OrchestratorConnection)
    (element_id : string) (status : QueueStatus) (msg : string) : M unit :=
  emit (EvSetQueueElementStatus element_id status msg).

(** Modelled from the spec: [robot_framework/error_screenshot.py] is not part
    of the sources at hand.  The spec has it send a screenshot-plus-message
    email to the configured address; the model records that email. *)
Definition send_error_screenshot (to : string) (error : PyObj)
    (process_name : string) : M unit :=
  emit (EvSendErrorScreenshot to error process_name).

Definition nl : string := String "010" "".

Definition PROD_INSTANCE : string := "aarhuskommune".
Definition TEST_INSTANCE : string := "aarhuskommunedev".

Definition json_headers : list (string * string) :=
  [("Content-Type", "application/json"); ("Accept", "application/json")].

Section Program.

Variable config : Config.

(** The ticketing API: what each request is answered with. *)
Variable network : Request -> outcome Response.

(** What [traceback.format_exc()] returns when [handle_error] runs. *)
Variable format_exc : string.

Definition send (r : Request) : M Response :=
  emit (EvRequest r) ;;
  match network r with
  | Returns resp => ret resp
  | Raises e => raise e
  end.

Definition requests_get (u : string) (h : list (string * string))
    (a : string * string) : M Response :=
  send {| method := GET; url := u; headers := h; auth := a;
          json_body := None |}.

Definition requests_put (u : string) (h : list (string * string))
    (a : string * string) (body : PyVal) : M Response :=
  send {| method := PUT; url := u; headers := h; auth := a;
          json_body := Some body |}.

Definition requests_post (u : string) (h : list (string * string))
    (a : string * string) (body : PyVal) : M Response :=
  send {| method := POST; url := u; headers := h; auth := a;
          json_body := Some body |}.

(** [response.json()] *)
Definition response_json (r : Response) : M PyVal :=
  match json r with
  | Returns v => ret v
  | Raises e => raise e
  end.

(** *** servicenow_handler.py *)

Definition lookup_query (process_name : string) : string :=
  "short_descriptionLIKE" ++ process_name
  ++ "^active=true^state!=6^ORDERBYDESCsys_created_on".

Definition get_incident (oc : OrchestratorConnection) : M PyVal :=
  emit (EvCall "get_incident") ;;
  let process_name := process_name oc in
  let query := lookup_query process_name in
  let get_url :=
    "https://" ++ TEST_INSTANCE
    ++ ".service-now.com/api/now/table/incident?sysparm_limit=50&sysparm_query="
    ++ query in
  let headers := json_headers in
  let service_now_api_username :=
    username (get_credential oc (SERVICE_NOW_API_PROD_USER config)) in
  let service_now_api_password :=
    password (get_credential oc (SERVICE_NOW_API_PROD_USER config)) in
  response <- requests_get get_url headers
                (service_now_api_username, service_now_api_password) ;;
  if (status_code response =? 200)%Z then
    body <- response_json response ;;
    results <- py_get body "result" (PyList []) ;;
    if Py.truthy results then
      first <- py_item0 results ;;
      sys_id <- py_get first "sys_id" PyNone ;;
      print (Py.str sys_id) ;;
      first <- py_item0 results ;;
      sys_id <- py_get first "sys_id" PyNone ;;
      ret sys_id
    else
      ret PyNone
  else
    print ("Error " ++ Str.of_Z (status_code response) ++ ": "
           ++ text response) ;;
    ret PyNone.

Definition update_incident (oc : OrchestratorConnection)
    (error_dict : list (string * PyVal)) (existing_incident_sys_id : PyVal)
    : M PyVal :=
  emit (EvCall "update_incident") ;;
  let error_message := dict_get error_dict "message" (PyStr "") in
  let error_trace := dict_get error_dict "trace" (PyStr "") in
  let process_name := process_name oc in
  let comment_text :=
    "The process '" ++ process_name
    ++ "' has encountered another ApplicationException!" ++ nl ++ nl in
  let comment_text :=
    comment_text ++ "Exception message:" ++ nl ++ Py.str error_message
    ++ nl ++ nl in
  let comment_text :=
    comment_text ++ "Full Exception trace:" ++ nl ++ Py.str error_trace
    ++ nl ++ nl in
  let comment_text :=
    comment_text ++ "Please investigate the source of this error, as this comment is attached to an existing incident with the same process name." in
  print "" ;;
  print comment_text ;;
  let put_url :=
    "https://" ++ TEST_INSTANCE ++ ".service-now.com/api/now/table/incident/"
    ++ Py.str existing_incident_sys_id in
  let incident_data := PyDict [("comments", PyStr comment_text)] in
  let headers := json_headers in
  let service_now_api_username :=
    username (get_credential oc (SERVICE_NOW_API_PROD_USER config)) in
  let service_now_api_password :=
    password (get_credential oc (SERVICE_NOW_API_PROD_USER config)) in
  response <- requests_put put_url headers
                (service_now_api_username, service_now_api_password)
                incident_data ;;
  if (status_code response =? 200)%Z then
    body <- response_json response ;;
    py_get body "result" (PyDict [])
  else
    print ("Error " ++ Str.of_Z (status_code response) ++ ": "
           ++ text response) ;;
    ret PyNone.

Definition post_incident (oc : OrchestratorConnection)
    (error_dict : list (string * PyVal)) : M PyVal :=
  emit (EvCall "post_incident") ;;
  print "inside post_incident() function ..." ;;
  let error_message := dict_get error_dict "message" (PyStr "") in
  let error_trace := dict_get error_dict "trace" (PyStr "") in
  let post_url :=
    "https://" ++ TEST_INSTANCE ++ ".service-now.com/api/now/table/incident" in
  let incident_data := PyDict [
    ("contact_type", PyStr "integration");
    ("short_description",
       PyStr ("ApplicationException caught in process '" ++ process_name oc
              ++ "'"));
    ("description",
       PyStr ("Error message:" ++ nl ++ Py.str error_message ++ nl ++ nl
              ++ "Full error trace message:" ++ nl ++ Py.str error_trace));
    ("business_service", PyStr "");
    ("service_offering", PyStr "");
    ("assignment_group", PyStr "b54156a91ba5115068ba5398624bcb0e");
    ("assigned_to", PyStr "");
    ("category", PyStr "Fejl")] in
  let headers := json_headers in
  let service_now_api_username :=
    username (get_credential oc (SERVICE_NOW_API_PROD_USER config)) in
  let service_now_api_password :=
    password (get_credential oc (SERVICE_NOW_API_PROD_USER config)) in
  response <- requests_post post_url headers
                (service_now_api_username, service_now_api_password)
                incident_data ;;
  print "" ;;
  print ("Response Status Code: " ++ Str.of_Z (status_code response)) ;;
  print ("Response Text: " ++ text response) ;;
  if (status_code response =? 200)%Z then
    body <- response_json response ;;
    py_get body "result" (PyDict [])
  else
    print ("Error " ++ Str.of_Z (status_code response) ++ ": "
           ++ text response) ;;
    ret PyNone.

Definition handle_incident (oc : OrchestratorConnection)
    (error_dict : list (string * PyVal)) : M unit :=
  emit (EvCall "handle_incident") ;;
  existing_incident_sys_id <- get_incident oc ;;
  if Py.truthy existing_incident_sys_id then
    update_incident oc error_dict existing_incident_sys_id ;; ret tt
  else
    post_incident oc error_dict ;; ret tt.

(** *** exceptions.py *)

(** The bounded form of the serialized report. *)
Definition shorten (error_msg : string) : string :=
  if (1000 <? String.length error_msg)%nat
  then Str.slice None (Some 500%Z) error_msg ++ "  [...] "
       ++ Str.slice (Some (-490)%Z) None error_msg
  else error_msg.

Definition make_error_dict (message : string) (error_count : PyVal)
    (error : PyObj) : list (string * PyVal) :=
  [("type", PyStr message);
   ("error_count", error_count);
   ("message", PyStr (Exc.str error));
   ("trace", PyStr format_exc)].

Definition handle_error (message : string) (error_count : PyVal)
    (error : PyObj) (queue_element : option QueueElement)
    (oc : OrchestratorConnection) : M unit :=
  emit (EvCall "handle_error") ;;
  let error_dict := make_error_dict message error_count error in
  let error_msg := Json.dumps (PyDict error_dict) in
  let error_msg := shorten error_msg in
  let error_email := get_constant oc (ERROR_EMAIL config) in
  log_error oc error_msg ;;
  match queue_element with
  | Some q => set_queue_element_status oc (id q) FAILED error_msg
  | None => ret tt
  end ;;
  (if Exc.ne_class error BusinessError
   then send_error_screenshot error_email error (process_name oc)
   else ret tt) ;;
  if (message =? "ApplicationException")
     && Py.eqb error_count (MAX_RETRY_COUNT config)
  then
    try_except
      (log_trace oc "ApplicationException caught. Handling ServiceNow incident." ;;
       handle_incident oc error_dict ;;
       log_trace oc "ServiceNow incident handled.")
      (fun e =>
         print ("Failed to create ServiceNow incident: " ++ exc_str e) ;;
         log_error oc ("Failed to create ServiceNow incident. error_msg: "
                       ++ error_msg))
  else
    ret tt.

End Program.

(** ** Reading a trace *)

Definition is_call (f : string) (e : Event) : bool :=
  match e with
  | EvCall g => g =? f
  | _ => false
  end.

(** Whether the function named [f] was entered. *)
Definition called (f : string) (t : list Event) : bool := existsb (is_call f) t.

(** The HTTP requests of a trace, in the order they were issued. *)
Fixpoint requests (t : list Event) : list Request :=
  match t with
  | [] => []
  | EvRequest r :: t' => r :: requests t'
  | _ :: t' => requests t'
  end.

Definition method_eqb (a b : Method) : bool :=
  match a, b with
  | GET, GET | PUT, PUT | POST, POST => true
  | _, _ => false
  end.

(** The requests of a trace made with method [m]. *)
Definition sent (m : Method) (t : list Event) : list Request :=
  filter (fun r => method_eqb (method r) m) (requests t).

(** ** The requests of the incident handler *)

Definition incident_table : string :=
  "https://" ++ TEST_INSTANCE ++ ".service-now.com/api/now/table/incident".

Definition api_auth (config : Config) (oc : OrchestratorConnection)
    : string * string :=
  (username (get_credential oc (SERVICE_NOW_API_PROD_USER config)),
   password (get_credential oc (SERVICE_NOW_API_PROD_USER config))).

(** The lookup request of [get_incident]. *)
Definition lookup_request (config : Config) (oc : OrchestratorConnection)
    : Request :=
  {| method := GET;
     url := incident_table ++ "?sysparm_limit=50&sysparm_query="
            ++ lookup_query (process_name oc);
     headers := json_headers;
     auth := api_auth config oc;
     json_body := None |}.

(** The comment [update_incident] appends to the incident. *)
Definition update_comment (oc : OrchestratorConnection)
    (error_dict : list (string * PyVal)) : string :=
  "The process '" ++ process_name oc
  ++ "' has encountered another ApplicationException!" ++ nl ++ nl
  ++ "Exception message:" ++ nl
  ++ Py.str (dict_get error_dict "message" (PyStr "")) ++ nl ++ nl
  ++ "Full Exception trace:" ++ nl
  ++ Py.str (dict_get error_dict "trace" (PyStr "")) ++ nl ++ nl
  ++ "Please investigate the source of this error, as this comment is attached to an existing incident with the same process name.".

(** The update request of [update_incident]. *)
Definition update_request (config : Config) (oc : OrchestratorConnection)
    (error_dict : list (string * PyVal)) (sys_id : PyVal) : Request :=
  {| method := PUT;
     url := incident_table ++ "/" ++ Py.str sys_id;
     headers := json_headers;
     auth := api_auth config oc;
     json_body := Some (PyDict [("comments",
                                 PyStr (update_comment oc error_dict))]) |}.

(** The create request of [post_incident]. *)
Definition create_request (config : Config) (oc : OrchestratorConnection)
    (error_dict : list (string * PyVal)) : Request :=
  {| method := POST;
     url := incident_table;
     headers := json_headers;
     auth := api_auth config oc;
     json_body := Some (PyDict [
       ("contact_type", PyStr "integration");
       ("short_description",
          PyStr ("ApplicationException caught in process '"
                 ++ process_name oc ++ "'"));
       ("description",
          PyStr ("Error message:" ++ nl
                 ++ Py.str (dict_get error_dict "message" (PyStr ""))
                 ++ nl ++ nl ++ "Full error trace message:" ++ nl
                 ++ Py.str (dict_get error_dict "trace" (PyStr ""))));
       ("business_service", PyStr "");
       ("service_offering", PyStr "");
       ("assignment_group", PyStr "b54156a91ba5115068ba5398624bcb0e");
       ("assigned_to", PyStr "");
       ("category", PyStr "Fejl")]) |}.

(** What each function does with the reply it gets. *)
Definition error_line (r : Response) : string :=
  "Error " ++ Str.of_Z (status_code r) ++ ": " ++ text r.

Definition read_lookup (response : Response) : M PyVal :=
  if (status_code response =? 200)%Z then
    body <- response_json response ;;
    results <- py_get body "result" (PyList []) ;;
    if Py.truthy results then
      first <- py_item0 results ;;
      sys_id <- py_get first "sys_id" PyNone ;;
      print (Py.str sys_id) ;;
      first <- py_item0 results ;;
      sys_id <- py_get first "sys_id" PyNone ;;
      ret sys_id
    else
      ret PyNone
  else
    print (error_line response) ;;
    ret PyNone.

Definition read_result (response : Response) : M PyVal :=
  if (status_code response =? 200)%Z then
    body <- response_json response ;;
    py_get body "result" (PyDict [])
  else
    print (error_line response) ;;
    ret PyNone.

(** ** Computations that only print *)

Definition is_print (e : Event) : Prop :=
  match e with
  | EvPrint _ => True
  | _ => False
  end.

(** A computation that does nothing but print. *)
Definition quiet {A} (m : M A) : Prop := Forall is_print (trace m).

(** ** Sample collaborators *)

Module Sample.

Definition config : Config :=
  {| ERROR_EMAIL := "Error Email";
     MAX_RETRY_COUNT := PyInt 3;
     SERVICE_NOW_API_PROD_USER := "service_now_api_prod_user" |}.

Definition oc : OrchestratorConnection :=
  {| process_name := "test_nyt_prod";
     get_constant := fun _ => "rpa@example.org";
     get_credential := fun _ => {| username := "robot"; password := "secret" |} |}.

Definition error_dict : list (string * PyVal) :=
  [("type", PyStr "ApplicationException");
   ("error_count", PyInt 3);
   ("message", PyStr "window not found");
   ("trace", PyStr "Traceback (most recent call last): ...")].

Definition reply (status : Z) (body : PyVal) : Response :=
  {| status_code := status; text := Json.dumps body; json := Returns body |}.

(** A ticketing API that answers every request with the same reply. *)
Definition always (r : Response) : Request -> outcome Response :=
  fun _ => Returns r.

(** A ticketing API that answers the lookup with [r] and everything else
    with [other]. *)
Definition lookup_then (r other : Response) : Request -> outcome Response :=
  fun q => match method q with GET => Returns r | _ => Returns other end.

(** A ticketing API that cannot be reached. *)
Definition unreachable : Request -> outcome Response :=
  fun _ => Raises {| exc_class := OtherException "requests.exceptions.ConnectionError";
                     exc_str := "Max retries exceeded" |}.

Definition found : Response :=
  reply 200 (PyDict [("result", PyList [PyDict [("sys_id", PyStr "abc123")]])]).

Definition none_found : Response := reply 200 (PyDict [("result", PyList [])]).

Definition without_sys_id : Response :=
  reply 200 (PyDict [("result",
                      PyList [PyDict [("number", PyStr "INC0010001")]])]).

Definition updated : Response := reply 200 (PyDict [("result", PyDict [])]).

Definition server_error : Response :=
  {| status_code := 500; text := "Internal Server Error";
     json := Raises {| exc_class := OtherException "requests.exceptions.JSONDecodeError";
                       exc_str := "Expecting value: line 1 column 1 (char 0)" |} |}.

End Sample.

(** The two calls that write to the ticketing system. *)
Inductive Write : Type :=
| Update (sys_id : PyVal)
| Create.

Definition write_incident (config : Config)
    (network : Request -> outcome Response) (oc : OrchestratorConnection)
    (error_dict : list (string * PyVal)) (w : Write) : M PyVal :=
  match w with
  | Update sys_id => update_incident config network oc error_dict sys_id
  | Create => post_incident config network oc error_dict
  end.

Definition write_request (config : Config) (oc : OrchestratorConnection)
    (error_dict : list (string * PyVal)) (w : Write) : Request :=
  match w with
  | Update sys_id => update_request config oc error_dict sys_id
  | Create => create_request config oc error_dict
  end.

(** ** Reading a URL

    How the receiving side reads the URL of a request: the authority after
    [scheme://] and the parameters of the query string, separated by [&],
    split at the first [=] and percent-decoded.  These definitions state what the claims about the
    request URLs mean; the functions above only build the URL text. *)

Module Url.

Fixpoint free_of (stop : list ascii) (s : string) : bool :=
  match s with
  | EmptyString => true
  | String c s' => negb (existsb (Ascii.eqb c) stop) && free_of stop s'
  end.

(** The text before the first character of [stop]. *)
Fixpoint before (stop : list ascii) (s : string) : string :=
  match s with
  | EmptyString => ""
  | String c s' =>
      if existsb (Ascii.eqb c) stop then "" else String c (before stop s')
  end.

(** The text after the first character of [stop]; empty when there is none. *)
Fixpoint after (stop : list ascii) (s : string) : string :=
  match s with
  | EmptyString => ""
  | String c s' => if existsb (Ascii.eqb c) stop then s' else after stop s'
  end.

(** The text after the first [://]. *)
Fixpoint after_scheme (u : string) : string :=
  match u with
  | EmptyString => ""
  | String c u' =>
      if String.prefix "://" u then after ["/"%char] (after ["/"%char] u)
      else after_scheme u'
  end.

Definition authority (u : string) : string :=
  before ["/"; "?"; "#"]%char (after_scheme u).

Definition query (u : string) : string :=
  before ["#"%char] (after ["?"%char] (before ["#"%char] u)).

Fixpoint split_on (c : ascii) (s : string) : list string :=
  match s with
  | EmptyString => [""]
  | String d s' =>
      if Ascii.eqb d c then "" :: split_on c s'
      else match split_on c s' with
           | x :: l => String d x :: l
           | [] => [String d ""]
           end
  end.

Definition hex_value (c : ascii) : option nat :=
  let n := nat_of_ascii c in
  if (48 <=? n)%nat && (n <=? 57)%nat then Some (n - 48)
  else if (97 <=? n)%nat && (n <=? 102)%nat then Some (n - 87)
  else if (65 <=? n)%nat && (n <=? 70)%nat then Some (n - 55)
  else None.

(** Percent-decoding of a query-string component: [+] is a space and [%hh]
    the character with that code. *)
Fixpoint decode (s : string) : string :=
  match s with
  | EmptyString => ""
  | String c s' =>
      if Ascii.eqb c "+" then String " " (decode s')
      else if Ascii.eqb c "%" then
        match s' with
        | String h (String l s'') =>
            match hex_value h, hex_value l with
            | Some a, Some b => String (ascii_of_nat (16 * a + b)) (decode s'')
            | _, _ => String c (decode s')
            end
        | _ => String c (decode s')
        end
      else String c (decode s')
  end.

Definition key_value (s : string) : string * string :=
  (decode (before ["="%char] s), decode (after ["="%char] s)).

Definition params (u : string) : list (string * string) :=
  map key_value (split_on "&" (query u)).

End Url.

(** ** The request URLs *)

(** The characters a process name must not contain for the lookup URL to
    read back as the intended query. *)
Definition reserved : list ascii := ["&"; "#"; "%"; "+"; "^"]%char.

(** ** The error reporter *)

(** The message [handle_error] logs and stores. *)
Definition error_msg (format_exc message : string) (error_count : PyVal)
    (error : PyObj) : string :=
  shorten (Json.dumps (PyDict (make_error_dict format_exc message error_count
                                 error))).

(** The condition under which [handle_error] escalates. *)
Definition escalates (config : Config) (message : string)
    (error_count : PyVal) : bool :=
  (message =? "ApplicationException")
  && Py.eqb error_count (MAX_RETRY_COUNT config).

(** What [handle_error] does before it decides about escalation. *)
Definition report_events (config : Config) (format_exc message : string)
    (error_count : PyVal) (error : PyObj)
    (queue_element : option QueueElement) (oc : OrchestratorConnection)
    : list Event :=
  ([EvCall "handle_error";
    EvLogError (error_msg format_exc message error_count error)]
   ++ match queue_element with
      | Some q => [EvSetQueueElementStatus (id q) FAILED
                     (error_msg format_exc message error_count error)]
      | None => []
      end
   ++ if Exc.ne_class error BusinessError
      then [EvSendErrorScreenshot (get_constant oc (ERROR_EMAIL config)) error
              (process_name oc)]
      else [])%list.

(** The escalation and its handler. *)
Definition escalation (config : Config)
    (network : Request -> outcome Response) (format_exc message : string)
    (error_count : PyVal) (error : PyObj) (oc : OrchestratorConnection)
    : M unit :=
  try_except
    (log_trace oc "ApplicationException caught. Handling ServiceNow incident." ;;
     handle_incident config network oc
       (make_error_dict format_exc message error_count error) ;;
     log_trace oc "ServiceNow incident handled.")
    (fun e =>
       print ("Failed to create ServiceNow incident: " ++ exc_str e) ;;
       log_error oc ("Failed to create ServiceNow incident. error_msg: "
                     ++ error_msg format_exc message error_count error)).

Definition marker : string := "  [...] ".

Fixpoint repeat_char (c : ascii) (n : nat) : string :=
  match n with
  | O => ""
  | S n' => String c (repeat_char c n')
  end.

(** The request goes to the test instance and not to the production one. *)
Definition to_test_instance (r : Request) : Prop :=
  Url.authority (url r) = TEST_INSTANCE ++ ".service-now.com"
  /\ Url.authority (url r) <> PROD_INSTANCE ++ ".service-now.com".

(** ** More ways to read a trace *)

(** The messages logged as errors, in order. *)
Fixpoint error_logs (t : list Event) : list string :=
  match t with
  | [] => []
  | EvLogError m :: t' => m :: error_logs t'
  | _ :: t' => error_logs t'
  end.

(** The messages logged as traces, in order. *)
Fixpoint trace_logs (t : list Event) : list string :=
  match t with
  | [] => []
  | EvLogTrace m :: t' => m :: trace_logs t'
  | _ :: t' => trace_logs t'
  end.

(** The queue element status updates, in order. *)
Fixpoint status_updates (t : list Event)
    : list (string * QueueStatus * string) :=
  match t with
  | [] => []
  | EvSetQueueElementStatus i st m :: t' => (i, st, m) :: status_updates t'
  | _ :: t' => status_updates t'
  end.

(** The screenshot emails, in order. *)
Fixpoint screenshots (t : list Event) : list (string * PyObj * string) :=
  match t with
  | [] => []
  | EvSendErrorScreenshot to e pn :: t' => (to, e, pn) :: screenshots t'
  | _ :: t' => screenshots t'
  end.

(** The events the incident handler produces: calls, prints and requests. *)
Definition is_ticketing (e : Event) : Prop :=
  match e with
  | EvCall _ | EvPrint _ | EvRequest _ => True
  | _ => False
  end.

(** [sub] occurs in [s]. *)
Definition occurs_in (sub s : string) : Prop :=
  exists before after, s = before ++ sub ++ after.

(** Every character of [s] has a code of 32 or more. *)
Fixpoint no_control (s : string) : bool :=
  match s with
  | EmptyString => true
  | String c s' => (32 <=? nat_of_ascii c)%nat && no_control s'
  end.

(** The text of a JSON body field, when the body is an object that has it
    as a string. *)
Definition body_text (r : Request) (key : string) : option string :=
  match json_body r with
  | Some (PyDict d) =>
      match Py.lookup key d with
      | Some (PyStr s) => Some s
      | _ => None
      end
  | _ => None
  end.

(** * Properties *)

(** ** Values and strings *)

Example dumps_sample :
  Json.dumps (PyDict [("type", PyStr "Error");
                      ("error_count", PyNone);
                      ("message", PyStr (String "a" (String Str.dquote
                                           (String "010" "c"))));
                      ("n", PyList [PyInt (-12); PyBool true])])
  = String.concat (String Str.dquote "")
      ["{"; "type"; ": "; "Error"; ", "; "error_count"; ": null, ";
       "message"; ": "; "a\"; "\nc"; ", "; "n"; ": [-12, true]}"].
Proof. reflexivity. Qed.

Example str_samples :
  Py.str (PyInt 0) = "0" /\ Py.str (PyStr "x") = "x" /\
  Py.str (PyList [PyStr "its"; PyNone]) = "['its', None]" /\
  Py.str (PyDict [("k", PyStr (String "001" "e"))]) = "{'k': '\x01e'}" /\
  Py.eqb (PyBool true) (PyInt 1) = true /\ Py.eqb (PyStr "3") (PyInt 3) = false /\
  Str.slice None (Some 3%Z) "abcdef" = "abc" /\
  Str.slice (Some (-2)%Z) None "abcdef" = "ef" /\
  Str.slice (Some (-9)%Z) None "abcdef" = "abcdef".
Proof. repeat split; reflexivity. Qed.

(** ** The monad *)

Lemma trace_bind {A B} (m : M A) (f : A -> M B) :
  trace (bind m f)
  = (trace m ++ match result m with
                | Returns a => trace (f a)
                | Raises _ => []
                end)%list.
Proof.
  destruct m as [t [a | e]]; cbn.
  - destruct (f a); reflexivity.
  - now rewrite app_nil_r.
Qed.

Lemma result_bind {A B} (m : M A) (f : A -> M B) :
  result (bind m f)
  = match result m with
    | Returns a => result (f a)
    | Raises e => Raises e
    end.
Proof.
  destruct m as [t [a | e]]; cbn; [destruct (f a)|]; reflexivity.
Qed.

Lemma trace_try_except {A} (m : M A) (h : PyExc -> M A) :
  trace (try_except m h)
  = (trace m ++ match result m with
                | Returns _ => []
                | Raises e => trace (h e)
                end)%list.
Proof.
  destruct m as [t [a | e]]; cbn.
  - now rewrite app_nil_r.
  - destruct (h e); reflexivity.
Qed.

Lemma result_try_except {A} (m : M A) (h : PyExc -> M A) :
  result (try_except m h)
  = match result m with
    | Returns a => Returns a
    | Raises e => result (h e)
    end.
Proof.
  destruct m as [t [a | e]]; cbn; [|destruct (h e)]; reflexivity.
Qed.

Lemma requests_app (t u : list Event) :
  requests (t ++ u) = (requests t ++ requests u)%list.
Proof.
  induction t as [|e t IH]; [reflexivity|].
  destruct e; cbn; now rewrite IH.
Qed.

Lemma sent_app (m : Method) (t u : list Event) :
  sent m (t ++ u) = (sent m t ++ sent m u)%list.
Proof. unfold sent. now rewrite requests_app, filter_app. Qed.

Lemma called_app (f : string) (t u : list Event) :
  called f (t ++ u) = called f t || called f u.
Proof. apply existsb_app. Qed.

(** ** The functions, unfolded to their request and its reader *)

Lemma append_assoc (a b c : string) : (a ++ b) ++ c = a ++ b ++ c.
Proof. induction a as [|x a IH]; cbn; [reflexivity | now rewrite IH]. Qed.

Lemma send_eq (network : Request -> outcome Response) (r : Request) :
  send network r = ([EvRequest r], network r).
Proof. unfold send. destruct (network r); reflexivity. Qed.

Lemma emit_bind {A B} (e : Event) (t : list Event) (o : outcome A)
    (k : A -> M B) :
  (emit e ;; bind (t, o) k) = bind (e :: t, o) k.
Proof. destruct o as [a | x]; cbn; [destruct (k a)|]; reflexivity. Qed.

Section Handler.

Variable config : Config.
Variable network : Request -> outcome Response.
Variable oc : OrchestratorConnection.

Lemma get_incident_eq :
  get_incident config network oc
  = bind ([EvCall "get_incident"; EvRequest (lookup_request config oc)],
          network (lookup_request config oc))
         read_lookup.
Proof.
  transitivity
    (emit (EvCall "get_incident") ;;
     bind (send network (lookup_request config oc)) read_lookup);
    [reflexivity|].
  now rewrite send_eq, emit_bind.
Qed.

Lemma update_incident_eq (error_dict : list (string * PyVal)) (sys_id : PyVal) :
  update_incident config network oc error_dict sys_id
  = bind ([EvCall "update_incident"; EvPrint "";
           EvPrint (update_comment oc error_dict);
           EvRequest (update_request config oc error_dict sys_id)],
          network (update_request config oc error_dict sys_id))
         read_result.
Proof.
  assert (Hc : forall a b c d : string,
    (((("The process '" ++ a ++ "' has encountered another ApplicationException!"
        ++ nl ++ nl) ++ "Exception message:" ++ nl ++ b ++ nl ++ nl)
      ++ "Full Exception trace:" ++ nl ++ c ++ nl ++ nl) ++ d)
    = "The process '" ++ a
      ++ "' has encountered another ApplicationException!" ++ nl ++ nl
      ++ "Exception message:" ++ nl ++ b ++ nl ++ nl
      ++ "Full Exception trace:" ++ nl ++ c ++ nl ++ nl ++ d).
  { intros. now rewrite !append_assoc. }
  unfold update_incident, requests_put. rewrite Hc.
  transitivity
    (emit (EvCall "update_incident") ;;
     emit (EvPrint "") ;;
     emit (EvPrint (update_comment oc error_dict)) ;;
     bind (send network (update_request config oc error_dict sys_id))
          read_result);
    [reflexivity|].
  now rewrite send_eq, !emit_bind.
Qed.

Lemma post_incident_eq (error_dict : list (string * PyVal)) :
  post_incident config network oc error_dict
  = bind ([EvCall "post_incident";
           EvPrint "inside post_incident() function ...";
           EvRequest (create_request config oc error_dict)],
          network (create_request config oc error_dict))
         (fun response =>
            print "" ;;
            print ("Response Status Code: "
                   ++ Str.of_Z (status_code response)) ;;
            print ("Response Text: " ++ text response) ;;
            read_result response).
Proof.
  transitivity
    (emit (EvCall "post_incident") ;;
     emit (EvPrint "inside post_incident() function ...") ;;
     bind (send network (create_request config oc error_dict))
          (fun response =>
            print "" ;;
            print ("Response Status Code: "
                   ++ Str.of_Z (status_code response)) ;;
            print ("Response Text: " ++ text response) ;;
            read_result response));
    [reflexivity|].
  now rewrite send_eq, !emit_bind.
Qed.

Lemma handle_incident_eq (error_dict : list (string * PyVal)) :
  handle_incident config network oc error_dict
  = (emit (EvCall "handle_incident") ;;
     existing_incident_sys_id <- get_incident config network oc ;;
     if Py.truthy existing_incident_sys_id then
       update_incident config network oc error_dict existing_incident_sys_id ;;
       ret tt
     else
       post_incident config network oc error_dict ;; ret tt).
Proof. reflexivity. Qed.

End Handler.

(** ** Replies are only read and printed *)

Lemma prints_requests (t : list Event) : Forall is_print t -> requests t = [].
Proof.
  induction 1 as [|e t He _ IH]; [reflexivity|].
  destruct e; cbn in *; tauto.
Qed.

Lemma prints_called (f : string) (t : list Event) :
  Forall is_print t -> called f t = false.
Proof.
  induction 1 as [|e t He _ IH]; [reflexivity|].
  destruct e; cbn in *; tauto.
Qed.

Lemma quiet_ret {A} (a : A) : quiet (ret a).
Proof. constructor. Qed.

Lemma quiet_raise {A} (e : PyExc) : quiet (@raise A e).
Proof. constructor. Qed.

Lemma quiet_print (s : string) : quiet (print s).
Proof. repeat constructor. Qed.

Lemma quiet_bind {A B} (m : M A) (f : A -> M B) :
  quiet m -> (forall a, quiet (f a)) -> quiet (bind m f).
Proof.
  unfold quiet. intros Hm Hf. rewrite trace_bind. apply Forall_app. split.
  - exact Hm.
  - destruct (result m); [apply Hf | constructor].
Qed.

Lemma quiet_if {A} (c : bool) (m n : M A) :
  quiet m -> quiet n -> quiet (if c then m else n).
Proof. now destruct c. Qed.

Lemma quiet_py_get (obj : PyVal) (k : string) (d : PyVal) :
  quiet (py_get obj k d).
Proof. destruct obj; constructor. Qed.

Lemma quiet_py_item0 (obj : PyVal) : quiet (py_item0 obj).
Proof. destruct obj as [| | | [|] | [|] |]; constructor. Qed.

Lemma quiet_response_json (r : Response) : quiet (response_json r).
Proof. unfold response_json. destruct (json r); constructor. Qed.

Create HintDb quiet.
#[local] Hint Resolve quiet_ret quiet_raise quiet_print quiet_py_get
  quiet_py_item0 quiet_response_json : quiet.
#[local] Hint Extern 2 (quiet (bind _ _)) =>
  apply quiet_bind; [|intro] : quiet.
#[local] Hint Extern 2 (quiet (if _ then _ else _)) => apply quiet_if : quiet.

Lemma read_lookup_prints (r : Response) : quiet (read_lookup r).
Proof. unfold read_lookup. auto 20 with quiet. Qed.

Lemma read_result_prints (r : Response) : quiet (read_result r).
Proof. unfold read_result. auto 10 with quiet. Qed.

Lemma read_result_not_200 (r : Response) :
  status_code r <> 200%Z ->
  read_result r = ([EvPrint (error_line r)], Returns PyNone).
Proof.
  intros H. apply Z.eqb_neq in H. unfold read_result. now rewrite H.
Qed.

Lemma read_lookup_not_200 (r : Response) :
  status_code r <> 200%Z ->
  read_lookup r = ([EvPrint (error_line r)], Returns PyNone).
Proof.
  intros H. apply Z.eqb_neq in H. unfold read_lookup. now rewrite H.
Qed.

(** ** One request per function *)

Section Requests.

Variable config : Config.
Variable network : Request -> outcome Response.
Variable oc : OrchestratorConnection.
Variable error_dict : list (string * PyVal).

Lemma requests_after {A B} (pre : list Event) (o : outcome A) (k : A -> M B) :
  (forall a, quiet (k a)) ->
  requests (trace (bind (pre, o) k)) = requests pre.
Proof.
  intros Hk. rewrite trace_bind, requests_app. cbn [trace result fst snd].
  destruct o as [a | e]; cbn.
  - rewrite (prints_requests _ (Hk a)). apply app_nil_r.
  - apply app_nil_r.
Qed.

Lemma called_after {A B} (f : string) (pre : list Event) (o : outcome A)
    (k : A -> M B) :
  (forall a, quiet (k a)) ->
  called f (trace (bind (pre, o) k)) = called f pre.
Proof.
  intros Hk. rewrite trace_bind, called_app. cbn [trace result fst snd].
  destruct o as [a | e]; cbn.
  - rewrite (prints_called _ _ (Hk a)). apply orb_false_r.
  - apply orb_false_r.
Qed.

Lemma quiet_post_reader (response : Response) :
  quiet (print "" ;;
         print ("Response Status Code: " ++ Str.of_Z (status_code response)) ;;
         print ("Response Text: " ++ text response) ;;
         read_result response).
Proof. pose proof (read_result_prints response). auto 10 with quiet. Qed.

Lemma get_incident_requests :
  requests (trace (get_incident config network oc))
  = [lookup_request config oc].
Proof.
  rewrite get_incident_eq, requests_after; [reflexivity|].
  apply read_lookup_prints.
Qed.

Lemma update_incident_requests (sys_id : PyVal) :
  requests (trace (update_incident config network oc error_dict sys_id))
  = [update_request config oc error_dict sys_id].
Proof.
  rewrite update_incident_eq, requests_after; [reflexivity|].
  apply read_result_prints.
Qed.

Lemma post_incident_requests :
  requests (trace (post_incident config network oc error_dict))
  = [create_request config oc error_dict].
Proof.
  rewrite post_incident_eq, requests_after; [reflexivity|].
  apply quiet_post_reader.
Qed.

Lemma get_incident_calls (f : string) :
  called f (trace (get_incident config network oc)) = ("get_incident" =? f).
Proof.
  rewrite get_incident_eq, called_after; [|apply read_lookup_prints].
  cbn. now rewrite orb_false_r.
Qed.

Lemma update_incident_calls (f : string) (sys_id : PyVal) :
  called f (trace (update_incident config network oc error_dict sys_id))
  = ("update_incident" =? f).
Proof.
  rewrite update_incident_eq, called_after; [|apply read_result_prints].
  cbn. now rewrite orb_false_r.
Qed.

Lemma post_incident_calls (f : string) :
  called f (trace (post_incident config network oc error_dict))
  = ("post_incident" =? f).
Proof.
  rewrite post_incident_eq, called_after; [|apply quiet_post_reader].
  cbn. now rewrite orb_false_r.
Qed.

(** The two branches of [handle_incident]. *)
Lemma handle_incident_updates (sys_id : PyVal) :
  result (get_incident config network oc) = Returns sys_id ->
  Py.truthy sys_id = true ->
  trace (handle_incident config network oc error_dict)
  = (EvCall "handle_incident" :: trace (get_incident config network oc)
     ++ trace (update_incident config network oc error_dict sys_id))%list.
Proof.
  intros Hr Ht. rewrite handle_incident_eq.
  rewrite trace_bind. cbn [emit trace result fst snd app].
  rewrite trace_bind, Hr, Ht, trace_bind.
  destruct (result (update_incident _ _ _ _ _)); cbn; now rewrite app_nil_r.
Qed.

Lemma handle_incident_creates (v : PyVal) :
  result (get_incident config network oc) = Returns v ->
  Py.truthy v = false ->
  trace (handle_incident config network oc error_dict)
  = (EvCall "handle_incident" :: trace (get_incident config network oc)
     ++ trace (post_incident config network oc error_dict))%list.
Proof.
  intros Hr Ht. rewrite handle_incident_eq.
  rewrite trace_bind. cbn [emit trace result fst snd app].
  rewrite trace_bind, Hr, Ht, trace_bind.
  destruct (result (post_incident _ _ _ _)); cbn; now rewrite app_nil_r.
Qed.

Lemma sent_handle_incident_updates (sys_id : PyVal) :
  result (get_incident config network oc) = Returns sys_id ->
  Py.truthy sys_id = true ->
  let t := trace (handle_incident config network oc error_dict) in
  sent GET t = [lookup_request config oc]
  /\ sent PUT t = [update_request config oc error_dict sys_id]
  /\ sent POST t = []
  /\ called "update_incident" t = true
  /\ called "post_incident" t = false.
Proof.
  intros Hr Ht t. subst t. rewrite (handle_incident_updates _ Hr Ht).
  change (EvCall "handle_incident" :: ?a ++ ?b)%list
    with ([EvCall "handle_incident"] ++ a ++ b)%list.
  rewrite !sent_app, !called_app. unfold sent.
  rewrite get_incident_requests, update_incident_requests.
  rewrite !get_incident_calls, !update_incident_calls.
  repeat split; reflexivity.
Qed.

Lemma sent_handle_incident_creates (v : PyVal) :
  result (get_incident config network oc) = Returns v ->
  Py.truthy v = false ->
  let t := trace (handle_incident config network oc error_dict) in
  sent GET t = [lookup_request config oc]
  /\ sent PUT t = []
  /\ sent POST t = [create_request config oc error_dict]
  /\ called "update_incident" t = false
  /\ called "post_incident" t = true.
Proof.
  intros Hr Ht t. subst t. rewrite (handle_incident_creates _ Hr Ht).
  change (EvCall "handle_incident" :: ?a ++ ?b)%list
    with ([EvCall "handle_incident"] ++ a ++ b)%list.
  rewrite !sent_app, !called_app. unfold sent.
  rewrite get_incident_requests, post_incident_requests.
  rewrite !get_incident_calls, !post_incident_calls.
  repeat split; reflexivity.
Qed.

End Requests.

(** ** What the lookup returns *)

Section Lookup.

Variable config : Config.
Variable network : Request -> outcome Response.
Variable oc : OrchestratorConnection.

Lemma get_incident_result (resp : Response) :
  network (lookup_request config oc) = Returns resp ->
  result (get_incident config network oc) = result (read_lookup resp).
Proof.
  intros Hnet. rewrite get_incident_eq, result_bind, Hnet. reflexivity.
Qed.

Lemma read_lookup_first (resp : Response) (body first : list (string * PyVal))
    (rest : list PyVal) :
  status_code resp = 200%Z ->
  json resp = Returns (PyDict body) ->
  dict_get body "result" (PyList []) = PyList (PyDict first :: rest) ->
  read_lookup resp
  = ([EvPrint (Py.str (dict_get first "sys_id" PyNone))],
     Returns (dict_get first "sys_id" PyNone)).
Proof.
  intros Hst Hj Hres. unfold read_lookup, response_json.
  rewrite Hst, Hj. cbn. rewrite Hres. reflexivity.
Qed.

Lemma read_lookup_empty (resp : Response) (body : list (string * PyVal)) :
  status_code resp = 200%Z ->
  json resp = Returns (PyDict body) ->
  dict_get body "result" (PyList []) = PyList [] ->
  read_lookup resp = ([], Returns PyNone).
Proof.
  intros Hst Hj Hres. unfold read_lookup, response_json.
  rewrite Hst, Hj. cbn. rewrite Hres. reflexivity.
Qed.

End Lookup.

(** ** The incident deduplicator *)

(** C5: when the lookup request is answered with a status other than 200,
    [get_incident] returns [None] and [handle_incident] goes on exactly as
    after a lookup without results: it calls [post_incident], which issues
    the create request, and neither calls [update_incident] nor issues an
    update request. *)
Theorem lookup_failure_falls_through_to_create
    (config : Config) (network : Request -> outcome Response)
    (oc : OrchestratorConnection) (error_dict : list (string * PyVal))
    (resp : Response) :
  network (lookup_request config oc) = Returns resp ->
  status_code resp <> 200%Z ->
  let t := trace (handle_incident config network oc error_dict) in
  result (get_incident config network oc) = Returns PyNone
  /\ t = (EvCall "handle_incident" :: trace (get_incident config network oc)
          ++ trace (post_incident config network oc error_dict))%list
  /\ called "post_incident" t = true
  /\ called "update_incident" t = false
  /\ sent POST t = [create_request config oc error_dict]
  /\ sent PUT t = [].
Proof.
  intros Hnet Hst t.
  assert (Hr : result (get_incident config network oc) = Returns PyNone).
  { rewrite (get_incident_result _ _ _ _ Hnet).
    now rewrite (read_lookup_not_200 _ Hst). }
  destruct (sent_handle_incident_creates config network oc error_dict
              PyNone Hr eq_refl) as (_ & Hput & Hpost & Hu & Hp).
  repeat split; try assumption.
  apply (handle_incident_creates config network oc error_dict PyNone Hr eq_refl).
Qed.

Lemma lookup_failure_falls_through_to_create_witness :
  let t := trace (handle_incident Sample.config
                    (Sample.lookup_then Sample.server_error Sample.updated)
                    Sample.oc Sample.error_dict) in
  result (get_incident Sample.config
            (Sample.lookup_then Sample.server_error Sample.updated) Sample.oc)
  = Returns PyNone
  /\ sent POST t = [create_request Sample.config Sample.oc Sample.error_dict]
  /\ sent PUT t = [].
Proof.
  pose proof (lookup_failure_falls_through_to_create Sample.config
                (Sample.lookup_then Sample.server_error Sample.updated)
                Sample.oc Sample.error_dict Sample.server_error eq_refl)
    as H.
  cbv zeta in H.
  destruct H as (Hr & _ & _ & _ & Hpost & Hput).
  - cbn. discriminate.
  - cbv zeta. repeat split; assumption.
Defined.

(** C8: when the update request of [update_incident] or the create request
    of [post_incident] is answered with a status other than 200, the
    function prints the line [Error <status>: <text>] last, returns [None]
    without raising, and has issued that one request only. *)
Theorem failed_write_is_printed_and_dropped
    (config : Config) (network : Request -> outcome Response)
    (oc : OrchestratorConnection) (error_dict : list (string * PyVal))
    (w : Write) (resp : Response) :
  network (write_request config oc error_dict w) = Returns resp ->
  status_code resp <> 200%Z ->
  let run := write_incident config network oc error_dict w in
  result run = Returns PyNone
  /\ requests (trace run) = [write_request config oc error_dict w]
  /\ (exists before,
        trace run
        = (before ++ [EvPrint ("Error " ++ Str.of_Z (status_code resp) ++ ": "
                               ++ text resp)])%list).
Proof.
  intros Hnet Hst run. subst run.
  destruct w as [sys_id |]; cbn [write_incident write_request] in *.
  - split; [|split].
    + rewrite update_incident_eq, result_bind. cbn [result snd].
      now rewrite Hnet, (read_result_not_200 _ Hst).
    + apply update_incident_requests.
    + rewrite update_incident_eq, Hnet. cbn [bind].
      rewrite (read_result_not_200 _ Hst). now eexists.
  - split; [|split].
    + rewrite post_incident_eq, result_bind. cbn [result snd].
      rewrite Hnet, !result_bind. cbn [print emit result snd].
      now rewrite (read_result_not_200 _ Hst).
    + apply post_incident_requests.
    + rewrite post_incident_eq, Hnet. cbn [bind print emit].
      rewrite (read_result_not_200 _ Hst). cbn.
      eexists [_; _; _; _; _; _]. reflexivity.
Qed.

Lemma failed_write_is_printed_and_dropped_witness :
  update_incident Sample.config (Sample.always Sample.server_error) Sample.oc
    Sample.error_dict (PyStr "abc123")
  = ([EvCall "update_incident"; EvPrint "";
      EvPrint (update_comment Sample.oc Sample.error_dict);
      EvRequest (update_request Sample.config Sample.oc Sample.error_dict
                   (PyStr "abc123"));
      EvPrint "Error 500: Internal Server Error"],
     Returns PyNone)
  /\ result (post_incident Sample.config (Sample.always Sample.server_error)
               Sample.oc Sample.error_dict) = Returns PyNone.
Proof.
  split.
  - reflexivity.
  - refine (proj1 (failed_write_is_printed_and_dropped Sample.config
                     (Sample.always Sample.server_error) Sample.oc
                     Sample.error_dict Create Sample.server_error
                     eq_refl _)).
    cbn. discriminate.
Defined.

(** C9: when the lookup is answered with status 200 and a non-empty result
    list whose first entry is an object without a [sys_id] key, or with a
    [sys_id] that is falsy, [get_incident] returns that falsy value ([None]
    when the key is absent) and [handle_incident] calls [post_incident] and
    issues the create request, not an update request. *)
Theorem first_match_without_sys_id_creates
    (config : Config) (network : Request -> outcome Response)
    (oc : OrchestratorConnection) (error_dict : list (string * PyVal))
    (resp : Response) (body first : list (string * PyVal))
    (rest : list PyVal) :
  network (lookup_request config oc) = Returns resp ->
  status_code resp = 200%Z ->
  json resp = Returns (PyDict body) ->
  dict_get body "result" (PyList []) = PyList (PyDict first :: rest) ->
  (Py.lookup "sys_id" first = None
   \/ exists v, Py.lookup "sys_id" first = Some v /\ Py.truthy v = false) ->
  let sys_id := match Py.lookup "sys_id" first with
                | Some v => v
                | None => PyNone
                end in
  let t := trace (handle_incident config network oc error_dict) in
  result (get_incident config network oc) = Returns sys_id
  /\ Py.truthy sys_id = false
  /\ called "post_incident" t = true
  /\ called "update_incident" t = false
  /\ sent POST t = [create_request config oc error_dict]
  /\ sent PUT t = [].
Proof.
  intros Hnet Hst Hj Hres Hfalsy sys_id t.
  assert (Hr : result (get_incident config network oc) = Returns sys_id).
  { rewrite (get_incident_result _ _ _ _ Hnet).
    now rewrite (read_lookup_first _ _ _ _ Hst Hj Hres). }
  assert (Ht : Py.truthy sys_id = false).
  { subst sys_id. destruct Hfalsy as [Hn | (v & Hs & Hv)].
    - now rewrite Hn.
    - now rewrite Hs. }
  destruct (sent_handle_incident_creates config network oc error_dict
              sys_id Hr Ht) as (_ & Hput & Hpost & Hu & Hp).
  repeat split; assumption.
Qed.

Lemma first_match_without_sys_id_creates_witness :
  let network := Sample.lookup_then Sample.without_sys_id Sample.updated in
  let t := trace (handle_incident Sample.config network Sample.oc
                    Sample.error_dict) in
  result (get_incident Sample.config network Sample.oc) = Returns PyNone
  /\ sent POST t = [create_request Sample.config Sample.oc Sample.error_dict]
  /\ sent PUT t = [].
Proof.
  intros network t.
  destruct (first_match_without_sys_id_creates Sample.config network Sample.oc
              Sample.error_dict Sample.without_sys_id
              [("result", PyList [PyDict [("number", PyStr "INC0010001")]])]
              [("number", PyStr "INC0010001")] []
              eq_refl eq_refl eq_refl eq_refl (or_introl eq_refl))
    as (Hr & _ & _ & _ & Hpost & Hput).
  repeat split; assumption.
Defined.

(** C2, as stated, fails: a status-200 lookup whose result list has one
    entry, an incident record without a [sys_id], is followed by a create
    request and no update request. *)
Lemma update_on_any_match_counterexample :
  ~ (forall (config : Config) (network : Request -> outcome Response)
            (oc : OrchestratorConnection) (error_dict : list (string * PyVal))
            (resp : Response) (body : list (string * PyVal))
            (first : PyVal) (rest : list PyVal),
       network (lookup_request config oc) = Returns resp ->
       status_code resp = 200%Z ->
       json resp = Returns (PyDict body) ->
       Py.lookup "result" body = Some (PyList (first :: rest)) ->
       let t := trace (handle_incident config network oc error_dict) in
       List.length (sent PUT t) = 1%nat /\ sent POST t = []).
Proof.
  intros H.
  specialize (H Sample.config
                (Sample.lookup_then Sample.without_sys_id Sample.updated)
                Sample.oc Sample.error_dict Sample.without_sys_id
                [("result", PyList [PyDict [("number", PyStr "INC0010001")]])]
                (PyDict [("number", PyStr "INC0010001")]) []
                eq_refl eq_refl eq_refl eq_refl).
  cbv zeta in H. destruct H as [H _].
  vm_compute in H. discriminate H.
Qed.

(** C2, amended: when the lookup is answered with status 200 and a result
    list whose first entry is an object with a truthy [sys_id],
    [handle_incident] issues exactly one update request, to the incident URL
    of that [sys_id], and no create request; when the result list is empty
    it issues exactly one create request and no update request. *)
Theorem lookup_decides_update_or_create
    (config : Config) (network : Request -> outcome Response)
    (oc : OrchestratorConnection) (error_dict : list (string * PyVal))
    (resp : Response) (body : list (string * PyVal)) :
  network (lookup_request config oc) = Returns resp ->
  status_code resp = 200%Z ->
  json resp = Returns (PyDict body) ->
  let t := trace (handle_incident config network oc error_dict) in
  (forall (first : list (string * PyVal)) (rest : list PyVal) (sys_id : PyVal),
     dict_get body "result" (PyList []) = PyList (PyDict first :: rest) ->
     Py.lookup "sys_id" first = Some sys_id ->
     Py.truthy sys_id = true ->
     sent PUT t = [update_request config oc error_dict sys_id]
     /\ map url (sent PUT t) = [incident_table ++ "/" ++ Py.str sys_id]
     /\ sent POST t = [])
  /\ (dict_get body "result" (PyList []) = PyList [] ->
      sent POST t = [create_request config oc error_dict]
      /\ sent PUT t = []).
Proof.
  intros Hnet Hst Hj t. split.
  - intros first rest sys_id Hres Hs Ht.
    assert (Hr : result (get_incident config network oc) = Returns sys_id).
    { rewrite (get_incident_result _ _ _ _ Hnet).
      rewrite (read_lookup_first _ _ _ _ Hst Hj Hres).
      unfold dict_get. now rewrite Hs. }
    destruct (sent_handle_incident_updates config network oc error_dict
                sys_id Hr Ht) as (_ & Hput & Hpost & _).
    subst t. rewrite Hput. repeat split; assumption.
  - intros Hres.
    assert (Hr : result (get_incident config network oc) = Returns PyNone).
    { rewrite (get_incident_result _ _ _ _ Hnet).
      now rewrite (read_lookup_empty _ _ Hst Hj Hres). }
    destruct (sent_handle_incident_creates config network oc error_dict
                PyNone Hr eq_refl) as (_ & Hput & Hpost & _).
    split; assumption.
Qed.

Lemma lookup_decides_update_or_create_witness :
  (let t := trace (handle_incident Sample.config
                     (Sample.lookup_then Sample.found Sample.updated)
                     Sample.oc Sample.error_dict) in
   map url (sent PUT t)
   = ["https://aarhuskommunedev.service-now.com/api/now/table/incident/abc123"]
   /\ sent POST t = [])
  /\ (let t := trace (handle_incident Sample.config
                        (Sample.lookup_then Sample.none_found Sample.updated)
                        Sample.oc Sample.error_dict) in
      sent POST t = [create_request Sample.config Sample.oc Sample.error_dict]
      /\ sent PUT t = []).
Proof.
  split.
  - pose proof (proj1 (lookup_decides_update_or_create Sample.config
                         (Sample.lookup_then Sample.found Sample.updated)
                         Sample.oc Sample.error_dict Sample.found
                         [("result", PyList [PyDict [("sys_id", PyStr "abc123")]])]
                         eq_refl eq_refl eq_refl)
                  [("sys_id", PyStr "abc123")] [] (PyStr "abc123")
                  eq_refl eq_refl eq_refl) as (_ & Hurl & Hpost).
    split; assumption.
  - exact (proj2 (lookup_decides_update_or_create Sample.config
                    (Sample.lookup_then Sample.none_found Sample.updated)
                    Sample.oc Sample.error_dict Sample.none_found
                    [("result", PyList [])]
                    eq_refl eq_refl eq_refl) eq_refl).
Defined.

(** ** Reading a URL *)

Example url_reading :
  let u := "https://host.example/api/items?limit=5&q=a%26b+c%5Ed#top" in
  Url.authority u = "host.example"
  /\ Url.params u = [("limit", "5"); ("q", "a&b c^d")].
Proof. repeat split; reflexivity. Qed.

Section UrlFacts.

Import Url.

Lemma free_of_app (stop : list ascii) (a b : string) :
  free_of stop (a ++ b) = free_of stop a && free_of stop b.
Proof.
  induction a as [|c a IH]; [reflexivity|].
  cbn. now rewrite IH, andb_assoc.
Qed.

Lemma free_of_incl (small big : list ascii) (s : string) :
  incl small big -> free_of big s = true -> free_of small s = true.
Proof.
  intros Hi. induction s as [|c s IH]; [reflexivity|].
  cbn. rewrite !andb_true_iff, !negb_true_iff. intros [Hc Hs].
  split; [|now apply IH].
  destruct (existsb (Ascii.eqb c) small) eqn:E; [|reflexivity].
  apply existsb_exists in E. destruct E as (x & Hx & Hcx).
  assert (existsb (Ascii.eqb c) big = true) as Hb
      by (apply existsb_exists; exists x; split; [now apply Hi | exact Hcx]).
  congruence.
Qed.

Lemma before_free (stop : list ascii) (s : string) :
  free_of stop s = true -> before stop s = s.
Proof.
  induction s as [|c s IH]; [reflexivity|].
  cbn. rewrite andb_true_iff, negb_true_iff. intros [Hc Hs].
  now rewrite Hc, IH.
Qed.

Lemma split_on_free (c : ascii) (s : string) :
  free_of [c] s = true -> split_on c s = [s].
Proof.
  induction s as [|d s IH]; [reflexivity|].
  cbn. rewrite orb_false_r, andb_true_iff, negb_true_iff. intros [Hd Hs].
  now rewrite Hd, IH.
Qed.

Lemma split_on_sep (c : ascii) (a b : string) :
  free_of [c] a = true ->
  split_on c (a ++ String c b) = a :: split_on c b.
Proof.
  induction a as [|d a IH].
  - intros _. cbn. now rewrite Ascii.eqb_refl.
  - cbn. rewrite orb_false_r, andb_true_iff, negb_true_iff. intros [Hd Ha].
    now rewrite Hd, IH.
Qed.

Lemma decode_free (s : string) :
  free_of ["+"; "%"]%char s = true -> decode s = s.
Proof.
  induction s as [|c s IH]; [reflexivity|].
  cbn. rewrite orb_false_r, andb_true_iff, negb_true_iff, orb_false_iff.
  intros [[Hp Hq] Hs]. now rewrite Hp, Hq, IH.
Qed.

End UrlFacts.

(** ** The lookup URL *)

Lemma before_app_free (stop : list ascii) (a s : string) :
  Url.free_of stop a = true ->
  Url.before stop (a ++ s) = a ++ Url.before stop s.
Proof.
  induction a as [|c a IH]; [reflexivity|].
  cbn. rewrite andb_true_iff, negb_true_iff. intros [Hc Ha].
  now rewrite Hc, IH.
Qed.

(** The URL text of the lookup request, for every process name. *)
Lemma lookup_url_text (config : Config) (oc : OrchestratorConnection) :
  url (lookup_request config oc)
  = "https://aarhuskommunedev.service-now.com/api/now/table/incident?sysparm_limit=50&sysparm_query=short_descriptionLIKE"
    ++ process_name oc ++ "^active=true^state!=6^ORDERBYDESCsys_created_on".
Proof. reflexivity. Qed.

(** C6 (the code departs from it): [get_incident] inserts the process name
    into the URL as it is, without URL-encoding.  For the process name [R&D]
    its one request is a GET on the incident endpoint whose query string
    holds [sysparm_limit=50], a [sysparm_query] that is only
    [short_descriptionLIKER], and a stray parameter [D^active]: no
    parameter of the request is the query for that process name, and the
    conditions [active=true] and [state!=6] and the ordering are not part of
    [sysparm_query]. *)
Theorem lookup_query_is_cut_at_an_ampersand
    (config : Config) (network : Request -> outcome Response)
    (constants : string -> string) (credentials : string -> Credential) :
  let oc := {| process_name := "R&D";
               get_constant := constants;
               get_credential := credentials |} in
  exists r,
    requests (trace (get_incident config network oc)) = [r]
    /\ method r = GET
    /\ url r = "https://aarhuskommunedev.service-now.com/api/now/table/incident?sysparm_limit=50&sysparm_query=short_descriptionLIKER&D^active=true^state!=6^ORDERBYDESCsys_created_on"
    /\ Url.params (url r)
       = [("sysparm_limit", "50");
          ("sysparm_query", "short_descriptionLIKER");
          ("D^active", "true^state!=6^ORDERBYDESCsys_created_on")]
    /\ lookup_query (process_name oc)
       = "short_descriptionLIKER&D^active=true^state!=6^ORDERBYDESCsys_created_on"
    /\ ~ In ("sysparm_query", lookup_query (process_name oc))
            (Url.params (url r)).
Proof.
  intros oc. exists (lookup_request config oc).
  split; [apply get_incident_requests|].
  repeat (split; [reflexivity|]).
  cbn. intros [H | [H | [H | []]]]; discriminate H.
Qed.

(** The same happens for every process name with an [&]: the
    [sysparm_query] of the lookup URL ends at the first one. *)
Lemma lookup_query_ends_at_the_first_ampersand
    (config : Config) (oc : OrchestratorConnection) (a b : string) :
  process_name oc = a ++ String "&" b ->
  Url.free_of ["&"; "#"; "%"; "+"]%char a = true ->
  exists rest,
    Url.params (url (lookup_request config oc))
    = ("sysparm_limit", "50")
      :: ("sysparm_query", "short_descriptionLIKE" ++ a) :: rest.
Proof.
  intros Hpn Ha.
  assert (Hfree : forall stop, incl stop ["&"; "#"; "%"; "+"]%char ->
            Url.free_of stop ("sysparm_query=short_descriptionLIKE" ++ a)
            = true).
  { intros stop Hi. rewrite free_of_app.
    rewrite (free_of_incl stop _ a Hi Ha), andb_true_r.
    apply (free_of_incl stop ["&"; "#"; "%"; "+"]%char); [exact Hi|].
    reflexivity. }
  remember (b ++ "^active=true^state!=6^ORDERBYDESCsys_created_on")
    as tail eqn:Etail.
  assert (Hu : url (lookup_request config oc)
               = "https://aarhuskommunedev.service-now.com/api/now/table/incident?sysparm_limit=50&"
                 ++ ("sysparm_query=short_descriptionLIKE" ++ a)
                 ++ String "&" tail).
  { rewrite lookup_url_text, Hpn, Etail. cbn.
    now rewrite !append_assoc. }
  unfold Url.params, Url.query. rewrite Hu. clear Hu.
  remember ("sysparm_query=short_descriptionLIKE" ++ a) as x eqn:Ex.
  cbn -[Url.split_on Url.key_value].
  rewrite (before_app_free ["#"%char] x)
    by (apply Hfree; intros y; cbn; tauto).
  cbn -[Url.split_on Url.key_value].
  rewrite (before_app_free ["#"%char] x)
    by (apply Hfree; intros y; cbn; tauto).
  cbn -[Url.key_value].
  rewrite (split_on_sep "&" x)
    by (apply Hfree; intros y; cbn; tauto).
  subst x. unfold Url.key_value at 1 2. cbn -[Url.split_on Url.key_value].
  rewrite (decode_free a).
  - eexists. reflexivity.
  - apply (free_of_incl _ ["&"; "#"; "%"; "+"]%char); [|exact Ha].
    intros y. cbn. tauto.
Qed.

(** For a process name without the characters [& # % + ^], in contrast,
    the lookup URL reads back as the query it is meant to carry:
    [sysparm_limit] 50 and a [sysparm_query] whose conditions are: short
    description contains the process name, [active=true], [state!=6],
    ordered by creation time descending. *)
Lemma lookup_request_selects_open_incidents
    (config : Config) (network : Request -> outcome Response)
    (oc : OrchestratorConnection) :
  exists r,
    requests (trace (get_incident config network oc)) = [r]
    /\ method r = GET
    /\ url r = "https://aarhuskommunedev.service-now.com/api/now/table/incident?sysparm_limit=50&sysparm_query=short_descriptionLIKE"
               ++ process_name oc
               ++ "^active=true^state!=6^ORDERBYDESCsys_created_on"
    /\ (Url.free_of reserved (process_name oc) = true ->
        Url.params (url r)
        = [("sysparm_limit", "50");
           ("sysparm_query", lookup_query (process_name oc))]
        /\ Url.split_on "^" (lookup_query (process_name oc))
           = ["short_descriptionLIKE" ++ process_name oc;
              "active=true"; "state!=6"; "ORDERBYDESCsys_created_on"]).
Proof.
  exists (lookup_request config oc).
  split; [apply get_incident_requests|].
  split; [reflexivity|]. split; [reflexivity|].
  intros Hfree.
  set (pn := process_name oc) in *.
  assert (Hq : forall stop, incl stop ["&"; "#"; "%"; "+"]%char ->
                 Url.free_of stop (lookup_query pn) = true).
  { intros stop Hi. apply (free_of_incl stop ["&"; "#"; "%"; "+"]%char).
    - exact Hi.
    - unfold lookup_query. rewrite !free_of_app.
      rewrite (free_of_incl ["&"; "#"; "%"; "+"]%char reserved pn);
        [reflexivity | | exact Hfree].
      intros x Hx. unfold reserved. cbn in *. tauto. }
  split.
  - unfold lookup_request, Url.params, Url.query. cbn [url]. fold pn.
    remember (lookup_query pn) as q eqn:Eq.
    cbn -[Url.key_value Url.split_on].
    rewrite !(before_free ["#"%char] q) by (apply Hq; intros x; cbn; tauto).
    cbn -[Url.key_value].
    rewrite (split_on_free "&" q) by (apply Hq; intros x; cbn; tauto).
    unfold Url.key_value. cbn.
    rewrite (decode_free q) by (apply Hq; intros x; cbn; tauto).
    reflexivity.
  - unfold lookup_query.
    change ("short_descriptionLIKE" ++ pn
            ++ "^active=true^state!=6^ORDERBYDESCsys_created_on")
      with ("short_descriptionLIKE"
            ++ (pn ++ String "^" "active=true^state!=6^ORDERBYDESCsys_created_on")).
    assert (Hp : Url.free_of ["^"%char] pn = true).
    { apply (free_of_incl _ reserved); [|exact Hfree].
      intros x. unfold reserved. cbn. tauto. }
    cbn -[Url.split_on].
    repeat (cbn [Url.split_on Ascii.eqb Bool.eqb]).
    rewrite (split_on_sep "^" pn _ Hp). reflexivity.
Qed.

Example lookup_url_of_the_sample_process :
  Url.params (url (lookup_request Sample.config Sample.oc))
  = [("sysparm_limit", "50");
     ("sysparm_query",
      "short_descriptionLIKEtest_nyt_prod^active=true^state!=6^ORDERBYDESCsys_created_on")].
Proof. reflexivity. Qed.

(** ** The error reporter *)

Section Reporter.

Variable config : Config.
Variable network : Request -> outcome Response.
Variable format_exc : string.
Variable message : string.
Variable error_count : PyVal.
Variable error : PyObj.
Variable queue_element : option QueueElement.
Variable oc : OrchestratorConnection.

Lemma handle_error_eq :
  handle_error config network format_exc message error_count error
    queue_element oc
  = bind (report_events config format_exc message error_count error
            queue_element oc, Returns tt)
         (fun _ =>
            if escalates config message error_count
            then escalation config network format_exc message error_count
                   error oc
            else ret tt).
Proof.
  unfold handle_error, report_events, escalates.
  fold (error_msg format_exc message error_count error).
  fold (escalation config network format_exc message error_count error oc).
  destruct queue_element as [q|], (Exc.ne_class error BusinessError); cbn;
    match goal with
    | |- context [if ?c then _ else _] => destruct c
    end; cbn;
    try destruct (escalation _ _ _ _ _ _ _); reflexivity.
Qed.

Lemma escalation_eq :
  let run := handle_incident config network oc
               (make_error_dict format_exc message error_count error) in
  escalation config network format_exc message error_count error oc
  = ((EvLogTrace "ApplicationException caught. Handling ServiceNow incident."
      :: trace run
      ++ match result run with
         | Returns _ => [EvLogTrace "ServiceNow incident handled."]
         | Raises e =>
             [EvPrint ("Failed to create ServiceNow incident: " ++ exc_str e);
              EvLogError ("Failed to create ServiceNow incident. error_msg: "
                          ++ error_msg format_exc message error_count error)]
         end)%list,
     Returns tt).
Proof.
  intros run. unfold escalation. fold run.
  destruct run as [t [[] | e]]; cbn; reflexivity.
Qed.

Lemma handle_error_returns :
  result (handle_error config network format_exc message error_count error
            queue_element oc) = Returns tt.
Proof.
  rewrite handle_error_eq, result_bind. cbn [result snd].
  destruct (escalates config message error_count); [|reflexivity].
  now rewrite escalation_eq.
Qed.

Lemma handle_error_trace :
  trace (handle_error config network format_exc message error_count error
           queue_element oc)
  = (report_events config format_exc message error_count error queue_element oc
     ++ if escalates config message error_count
        then trace (escalation config network format_exc message error_count
                      error oc)
        else [])%list.
Proof.
  rewrite handle_error_eq, trace_bind. cbn [trace result fst snd].
  now destruct (escalates config message error_count).
Qed.

Lemma report_events_quiet :
  requests (report_events config format_exc message error_count error
              queue_element oc) = []
  /\ called "handle_incident"
       (report_events config format_exc message error_count error
          queue_element oc) = false.
Proof.
  unfold report_events.
  destruct queue_element, (Exc.ne_class error BusinessError); split; reflexivity.
Qed.

Lemma handle_incident_called (error_dict : list (string * PyVal)) :
  called "handle_incident"
    (trace (handle_incident config network oc error_dict)) = true.
Proof. rewrite handle_incident_eq, trace_bind. reflexivity. Qed.

End Reporter.

(** C1: [handle_error] invokes [handle_incident] exactly when the message is
    [ApplicationException] and the error count equals
    [config.MAX_RETRY_COUNT]; in every other case no request goes to the
    ticketing system. *)
Theorem escalation_iff_application_exception_at_max_retry
    (config : Config) (network : Request -> outcome Response)
    (format_exc message : string) (error_count : PyVal) (error : PyObj)
    (queue_element : option QueueElement) (oc : OrchestratorConnection) :
  let t := trace (handle_error config network format_exc message error_count
                    error queue_element oc) in
  (called "handle_incident" t = true
   <-> message = "ApplicationException"
       /\ Py.eqb error_count (MAX_RETRY_COUNT config) = true)
  /\ (called "handle_incident" t = true \/ requests t = []).
Proof.
  intros t. subst t. rewrite handle_error_trace, called_app, requests_app.
  destruct (report_events_quiet config format_exc message error_count error
              queue_element oc) as [Hreq Hcall].
  rewrite Hreq, Hcall. cbn [orb app].
  unfold escalates.
  destruct (String.eqb_spec message "ApplicationException") as [Hm | Hm];
    destruct (Py.eqb error_count (MAX_RETRY_COUNT config)) eqn:Hc;
    cbn [andb].
  1: { assert (Hin : called "handle_incident"
                       (trace (escalation config network format_exc message
                                 error_count error oc)) = true).
       { rewrite escalation_eq. cbn [trace fst].
         change (?e :: ?a ++ ?b)%list with ([e] ++ a ++ b)%list.
         rewrite !called_app, handle_incident_called.
         reflexivity. }
       rewrite Hin. tauto. }
  all: cbn; split; [split; [discriminate | intros [? ?]; congruence] | now right].
Qed.

Example escalation_cases :
  let run message error_count :=
    trace (handle_error Sample.config (Sample.always Sample.none_found)
             "Traceback" message error_count
             (Instance {| exc_class := OtherException "RuntimeError";
                          exc_str := "boom" |})
             None Sample.oc) in
  called "handle_incident" (run "ApplicationException" (PyInt 3)) = true
  /\ called "handle_incident" (run "BusinessError" (PyInt 3)) = false
  /\ called "handle_incident" (run "ApplicationException" (PyInt 2)) = false
  /\ called "handle_incident" (run "BusinessError" (PyInt 2)) = false
  /\ called "handle_incident" (run "ApplicationException" (PyStr "3")) = false.
Proof. repeat split; reflexivity. Qed.

(** C3 (the code departs from it): [error != BusinessError] compares the
    exception instance with the class, so it holds for every instance, also
    for an instance of [BusinessError]: the screenshot email is sent for every
    exception instance, whatever its class. *)
Theorem screenshot_sent_for_every_exception_instance
    (config : Config) (network : Request -> outcome Response)
    (format_exc message : string) (error_count : PyVal) (e : PyExc)
    (queue_element : option QueueElement) (oc : OrchestratorConnection) :
  In (EvSendErrorScreenshot (get_constant oc (ERROR_EMAIL config)) (Instance e)
        (process_name oc))
     (trace (handle_error config network format_exc message error_count
               (Instance e) queue_element oc)).
Proof.
  rewrite handle_error_trace. apply in_or_app. left.
  unfold report_events. cbn [Exc.ne_class].
  destruct queue_element; cbn; tauto.
Qed.

Example business_error_sends_screenshot :
  let e := {| exc_class := BusinessError;
              exc_str := "Citizen is not registered" |} in
  let msg := error_msg "Traceback" "BusinessError" (PyInt 0) (Instance e) in
  handle_error Sample.config Sample.unreachable "Traceback" "BusinessError"
    (PyInt 0) (Instance e) (Some {| id := "42" |}) Sample.oc
  = ([EvCall "handle_error";
      EvLogError msg;
      EvSetQueueElementStatus "42" FAILED msg;
      EvSendErrorScreenshot "rpa@example.org" (Instance e) "test_nyt_prod"],
     Returns tt)
  /\ String.length msg = 105%nat.
Proof. split; vm_compute; reflexivity. Qed.

(** ** The bounded report *)

Lemma length_append (a b : string) :
  String.length (a ++ b) = (String.length a + String.length b)%nat.
Proof. induction a as [|c a IH]; cbn; [reflexivity | now rewrite IH]. Qed.

Lemma length_substring (n m : nat) (s : string) :
  (n + m <= String.length s)%nat -> String.length (substring n m s) = m.
Proof.
  revert n m. induction s as [|c s IH]; intros n m H; cbn in H.
  - assert (n = 0 /\ m = 0)%nat as [-> ->] by lia. reflexivity.
  - destruct n as [|n]; cbn.
    + destruct m as [|m]; [reflexivity|]. cbn. rewrite IH; [reflexivity | lia].
    + apply IH. lia.
Qed.

Lemma substring_all (s : string) : substring 0 (String.length s) s = s.
Proof. induction s as [|c s IH]; cbn; [reflexivity | now rewrite IH]. Qed.

Lemma shorten_long (s : string) :
  (1000 < String.length s)%nat ->
  shorten s = substring 0 500 s ++ marker
              ++ substring (String.length s - 490) 490 s.
Proof.
  intros H. unfold shorten, Str.slice, Str.norm_index.
  apply Nat.ltb_lt in H as Hb. rewrite Hb. apply Nat.ltb_lt in Hb.
  cbn [Z.ltb Z.compare].
  replace (Z.to_nat (Z.min 500 (Z.of_nat (String.length s)) - 0)) with 500%nat
    by lia.
  replace (Z.to_nat (Z.max 0 (-490 + Z.of_nat (String.length s))))
    with (String.length s - 490)%nat by lia.
  replace (Z.to_nat (Z.of_nat (String.length s)
                     - Z.max 0 (-490 + Z.of_nat (String.length s))))
    with 490%nat by lia.
  reflexivity.
Qed.

Lemma shorten_short (s : string) :
  (String.length s <= 1000)%nat -> shorten s = s.
Proof.
  intros H. unfold shorten.
  destruct (Nat.ltb_spec 1000 (String.length s)); [lia | reflexivity].
Qed.

Lemma shorten_length (s : string) :
  (String.length (shorten s) <= 1000 + String.length marker)%nat
  /\ ((1000 < String.length s)%nat -> String.length (shorten s) = 998%nat).
Proof.
  destruct (Nat.ltb_spec 1000 (String.length s)) as [H | H].
  - rewrite (shorten_long s H), !length_append, !length_substring by lia.
    cbn. lia.
  - rewrite (shorten_short s H). lia.
Qed.

(** C4: the message [handle_error] logs, and stores with the queue element
    when there is one, is the serialized report itself when that has at most
    1000 characters; otherwise it is its first 500 characters, the marker
    and its last 490 characters, 998 characters in all.  Either way it is no
    longer than 1000 characters plus the marker. *)
Theorem logged_report_is_bounded
    (config : Config) (network : Request -> outcome Response)
    (format_exc message : string) (error_count : PyVal) (error : PyObj)
    (queue_element : option QueueElement) (oc : OrchestratorConnection) :
  let s := Json.dumps (PyDict (make_error_dict format_exc message error_count
                                 error)) in
  let t := trace (handle_error config network format_exc message error_count
                    error queue_element oc) in
  exists stored,
    nth_error t 1 = Some (EvLogError stored)
    /\ match queue_element with
       | Some q =>
           nth_error t 2 = Some (EvSetQueueElementStatus (id q) FAILED stored)
       | None => True
       end
    /\ stored = (if (1000 <? String.length s)%nat
                 then substring 0 500 s ++ "  [...] "
                      ++ substring (String.length s - 490) 490 s
                 else s)
    /\ (String.length stored <= 1000 + String.length "  [...] ")%nat
    /\ (if (1000 <? String.length s)%nat
        then String.length stored = 998%nat
        else True).
Proof.
  intros s t. exists (shorten s).
  assert (Ht : exists rest,
             t = (EvCall "handle_error" :: EvLogError (shorten s)
                  :: match queue_element with
                     | Some q => [EvSetQueueElementStatus (id q) FAILED
                                    (shorten s)]
                     | None => []
                     end ++ rest)%list).
  { subst t. rewrite handle_error_trace. unfold report_events, error_msg.
    fold s. cbn [app]. rewrite <- app_assoc. eexists. reflexivity. }
  destruct Ht as (rest & ->).
  split; [reflexivity|]. split; [now destruct queue_element|].
  destruct (shorten_length s) as [Hle H998].
  destruct (Nat.ltb_spec 1000 (String.length s)) as [H | H].
  - split; [apply (shorten_long s H)|]. split; [exact Hle | now apply H998].
  - split; [apply (shorten_short s H)|]. split; [exact Hle | exact I].
Qed.

Example long_report_is_cut :
  let tb := "Traceback (most recent call last):" ++ repeat_char "x" 1200
            ++ "RuntimeError: boom" in
  let e := Instance {| exc_class := OtherException "RuntimeError";
                       exc_str := "boom" |} in
  let s := Json.dumps (PyDict (make_error_dict tb "ApplicationException"
                                 (PyInt 3) e)) in
  String.length s = 1334%nat
  /\ String.length (error_msg tb "ApplicationException" (PyInt 3) e) = 998%nat
  /\ substring 500 8 (error_msg tb "ApplicationException" (PyInt 3) e)
     = "  [...] "
  /\ nth_error (trace (handle_error Sample.config Sample.unreachable tb
                         "ApplicationException" (PyInt 3) e None Sample.oc)) 1
     = Some (EvLogError (error_msg tb "ApplicationException" (PyInt 3) e)).
Proof. repeat split; vm_compute; reflexivity. Qed.

(** ** Failures of the escalation *)

(** C7: whatever exception [handle_incident] raises (from its requests or
    from reading their replies), [handle_error] catches it, prints
    [Failed to create ServiceNow incident: <exception>], logs an error with
    the report to the orchestrator, and returns normally. *)
Theorem escalation_failure_is_absorbed
    (config : Config) (network : Request -> outcome Response)
    (format_exc message : string) (error_count : PyVal) (error : PyObj)
    (queue_element : option QueueElement) (oc : OrchestratorConnection)
    (e : PyExc) :
  let incident := handle_incident config network oc
                    (make_error_dict format_exc message error_count error) in
  let run := handle_error config network format_exc message error_count error
               queue_element oc in
  escalates config message error_count = true ->
  result incident = Raises e ->
  result run = Returns tt
  /\ trace run
     = (report_events config format_exc message error_count error
          queue_element oc
        ++ [EvLogTrace "ApplicationException caught. Handling ServiceNow incident."]
        ++ trace incident
        ++ [EvPrint ("Failed to create ServiceNow incident: " ++ exc_str e);
            EvLogError ("Failed to create ServiceNow incident. error_msg: "
                        ++ error_msg format_exc message error_count error)])%list.
Proof.
  intros incident run Hesc Hraise. subst run. split.
  - apply handle_error_returns.
  - rewrite handle_error_trace, Hesc, escalation_eq. cbn [trace fst].
    fold incident. now rewrite Hraise.
Qed.

Lemma escalation_failure_is_absorbed_witness :
  let e := Instance {| exc_class := OtherException "RuntimeError";
                       exc_str := "boom" |} in
  let run := handle_error Sample.config Sample.unreachable "Traceback"
               "ApplicationException" (PyInt 3) e None Sample.oc in
  result run = Returns tt
  /\ last (trace run) (EvCall "")
     = EvLogError ("Failed to create ServiceNow incident. error_msg: "
                   ++ error_msg "Traceback" "ApplicationException" (PyInt 3) e)
  /\ In (EvPrint "Failed to create ServiceNow incident: Max retries exceeded")
        (trace run).
Proof.
  intros e run.
  destruct (escalation_failure_is_absorbed Sample.config Sample.unreachable
              "Traceback" "ApplicationException" (PyInt 3) e None Sample.oc
              {| exc_class := OtherException "requests.exceptions.ConnectionError";
                 exc_str := "Max retries exceeded" |}
              eq_refl eq_refl) as [Hres Htrace].
  split; [exact Hres|].
  subst run. rewrite Htrace. split.
  - vm_compute. reflexivity.
  - vm_compute. tauto.
Defined.

(** [handle_error] returns normally with every ticketing API. *)
Lemma handle_error_never_raises
    (config : Config) (network : Request -> outcome Response)
    (format_exc message : string) (error_count : PyVal) (error : PyObj)
    (queue_element : option QueueElement) (oc : OrchestratorConnection) :
  result (handle_error config network format_exc message error_count error
            queue_element oc) = Returns tt.
Proof. apply handle_error_returns. Qed.

(** ** Where the requests go *)

Section Destinations.

Variable config : Config.
Variable network : Request -> outcome Response.
Variable oc : OrchestratorConnection.

Lemma handle_incident_requests (error_dict : list (string * PyVal)) :
  let rs := requests (trace (handle_incident config network oc error_dict)) in
  rs = [lookup_request config oc]
  \/ (exists sys_id,
        rs = [lookup_request config oc;
              update_request config oc error_dict sys_id])
  \/ rs = [lookup_request config oc; create_request config oc error_dict].
Proof.
  intros rs. subst rs. rewrite handle_incident_eq, trace_bind.
  cbn [emit trace result fst snd app requests].
  rewrite trace_bind, requests_app, get_incident_requests.
  destruct (result (get_incident config network oc)) as [v | e].
  - destruct (Py.truthy v).
    + right. left. exists v.
      rewrite trace_bind, requests_app, update_incident_requests.
      destruct (result (update_incident _ _ _ _ _)); reflexivity.
    + right. right.
      rewrite trace_bind, requests_app, post_incident_requests.
      destruct (result (post_incident _ _ _ _)); reflexivity.
  - left. reflexivity.
Qed.

Lemma handle_error_requests (format_exc message : string)
    (error_count : PyVal) (error : PyObj)
    (queue_element : option QueueElement) :
  requests (trace (handle_error config network format_exc message error_count
                     error queue_element oc))
  = if escalates config message error_count
    then requests (trace (handle_incident config network oc
                            (make_error_dict format_exc message error_count
                               error)))
    else [].
Proof.
  rewrite handle_error_trace, requests_app.
  rewrite (proj1 (report_events_quiet config format_exc message error_count
                    error queue_element oc)).
  destruct (escalates config message error_count); [|reflexivity].
  rewrite escalation_eq. cbn [trace fst app requests].
  rewrite requests_app.
  destruct (result (handle_incident _ _ _ _)); cbn; apply app_nil_r.
Qed.

End Destinations.

Lemma lookup_to_test_instance (config : Config) (oc : OrchestratorConnection) :
  to_test_instance (lookup_request config oc).
Proof. split; cbn; [reflexivity | discriminate]. Qed.

Lemma update_to_test_instance (config : Config) (oc : OrchestratorConnection)
    (error_dict : list (string * PyVal)) (sys_id : PyVal) :
  to_test_instance (update_request config oc error_dict sys_id).
Proof. split; cbn; [reflexivity | discriminate]. Qed.

Lemma create_to_test_instance (config : Config) (oc : OrchestratorConnection)
    (error_dict : list (string * PyVal)) :
  to_test_instance (create_request config oc error_dict).
Proof. split; cbn; [reflexivity | discriminate]. Qed.

(** C10: the requests issued by [get_incident], [update_incident] and
    [post_incident], one each, all go to the host of the test instance,
    [aarhuskommunedev.service-now.com], whatever the process name, the error
    and the incident id are, and none goes to the production host
    [aarhuskommune.service-now.com]; so does every request of a run of
    [handle_error]. *)
Theorem every_request_goes_to_the_test_instance
    (config : Config) (network : Request -> outcome Response)
    (format_exc message : string) (error_count : PyVal) (error : PyObj)
    (queue_element : option QueueElement) (oc : OrchestratorConnection)
    (error_dict : list (string * PyVal)) (sys_id : PyVal) :
  let issued :=
    (requests (trace (get_incident config network oc))
     ++ requests (trace (update_incident config network oc error_dict sys_id))
     ++ requests (trace (post_incident config network oc error_dict)))%list in
  map method issued = [GET; PUT; POST]
  /\ map (fun r => Url.authority (url r)) issued
     = ["aarhuskommunedev.service-now.com";
        "aarhuskommunedev.service-now.com";
        "aarhuskommunedev.service-now.com"]
  /\ Forall to_test_instance issued
  /\ Forall to_test_instance
       (requests (trace (handle_error config network format_exc message
                           error_count error queue_element oc))).
Proof.
  intros issued. subst issued.
  rewrite get_incident_requests, update_incident_requests,
    post_incident_requests.
  split; [reflexivity|]. split; [reflexivity|]. split.
  - repeat constructor; cbn; discriminate.
  - rewrite handle_error_requests.
    destruct (escalates config message error_count); [|constructor].
    pose proof (lookup_to_test_instance config oc) as Hl.
    pose proof (create_to_test_instance config oc
                  (make_error_dict format_exc message error_count error))
      as Hc.
    destruct (handle_incident_requests config network oc
                (make_error_dict format_exc message error_count error))
      as [-> | [(v & ->) | ->]]; repeat constructor;
      solve [apply Hl | apply Hc | apply update_to_test_instance].
Qed.

Example escalation_scenarios :
  let e := Instance {| exc_class := OtherException "RuntimeError";
                       exc_str := "window not found" |} in
  let run network :=
    map (fun r => (method r, url r))
        (requests (trace (handle_error Sample.config network "Traceback"
                            "ApplicationException" (PyInt 3) e None
                            Sample.oc))) in
  let lookup_url :=
    "https://aarhuskommunedev.service-now.com/api/now/table/incident?sysparm_limit=50&sysparm_query=short_descriptionLIKEtest_nyt_prod^active=true^state!=6^ORDERBYDESCsys_created_on" in
  run (Sample.lookup_then Sample.found Sample.updated)
  = [(GET, lookup_url);
     (PUT, "https://aarhuskommunedev.service-now.com/api/now/table/incident/abc123")]
  /\ run (Sample.lookup_then Sample.none_found Sample.updated)
     = [(GET, lookup_url);
        (POST, "https://aarhuskommunedev.service-now.com/api/now/table/incident")]
  /\ run (Sample.lookup_then Sample.server_error Sample.updated)
     = [(GET, lookup_url);
        (POST, "https://aarhuskommunedev.service-now.com/api/now/table/incident")]
  /\ run Sample.unreachable = [(GET, lookup_url)].
Proof. repeat split; vm_compute; reflexivity. Qed.

(** * Further properties *)

(** ** Events of the incident handler *)

Lemma error_logs_app (t u : list Event) :
  error_logs (t ++ u) = (error_logs t ++ error_logs u)%list.
Proof.
  induction t as [|e t IH]; [reflexivity|]. destruct e; cbn; now rewrite IH.
Qed.

Lemma trace_logs_app (t u : list Event) :
  trace_logs (t ++ u) = (trace_logs t ++ trace_logs u)%list.
Proof.
  induction t as [|e t IH]; [reflexivity|]. destruct e; cbn; now rewrite IH.
Qed.

Lemma status_updates_app (t u : list Event) :
  status_updates (t ++ u) = (status_updates t ++ status_updates u)%list.
Proof.
  induction t as [|e t IH]; [reflexivity|]. destruct e; cbn; now rewrite IH.
Qed.

Lemma screenshots_app (t u : list Event) :
  screenshots (t ++ u) = (screenshots t ++ screenshots u)%list.
Proof.
  induction t as [|e t IH]; [reflexivity|]. destruct e; cbn; now rewrite IH.
Qed.

Lemma ticketing_silent (t : list Event) :
  Forall is_ticketing t ->
  error_logs t = [] /\ trace_logs t = [] /\ status_updates t = []
  /\ screenshots t = [].
Proof.
  induction 1 as [|e t He _ IH]; [repeat split; reflexivity|].
  destruct e; cbn in *; tauto.
Qed.

Lemma print_is_ticketing (t : list Event) :
  Forall is_print t -> Forall is_ticketing t.
Proof.
  apply Forall_impl. intros e. destruct e; cbn; tauto.
Qed.

Lemma ticketing_after {A B} (pre : list Event) (o : outcome A) (k : A -> M B) :
  Forall is_ticketing pre -> (forall a, quiet (k a)) ->
  Forall is_ticketing (trace (bind (pre, o) k)).
Proof.
  intros Hpre Hk. rewrite trace_bind. cbn [trace result fst snd].
  apply Forall_app. split; [exact Hpre|].
  destruct o as [a | e]; [apply print_is_ticketing, Hk | constructor].
Qed.

Section TicketingEvents.

Variable config : Config.
Variable network : Request -> outcome Response.
Variable oc : OrchestratorConnection.
Variable error_dict : list (string * PyVal).

Lemma get_incident_ticketing :
  Forall is_ticketing (trace (get_incident config network oc)).
Proof.
  rewrite get_incident_eq. apply ticketing_after.
  - repeat constructor.
  - apply read_lookup_prints.
Qed.

Lemma update_incident_ticketing (sys_id : PyVal) :
  Forall is_ticketing
    (trace (update_incident config network oc error_dict sys_id)).
Proof.
  rewrite update_incident_eq. apply ticketing_after.
  - repeat constructor.
  - apply read_result_prints.
Qed.

Lemma post_incident_ticketing :
  Forall is_ticketing (trace (post_incident config network oc error_dict)).
Proof.
  rewrite post_incident_eq. apply ticketing_after.
  - repeat constructor.
  - apply quiet_post_reader.
Qed.

Lemma handle_incident_ticketing :
  Forall is_ticketing (trace (handle_incident config network oc error_dict)).
Proof.
  rewrite handle_incident_eq, trace_bind.
  cbn [emit trace result fst snd app]. constructor; [exact I|].
  rewrite trace_bind. apply Forall_app. split; [apply get_incident_ticketing|].
  destruct (result (get_incident config network oc)) as [v | e];
    [|constructor].
  destruct (Py.truthy v); rewrite trace_bind; apply Forall_app; split.
  - apply update_incident_ticketing.
  - destruct (result (update_incident _ _ _ _ _)); constructor.
  - apply post_incident_ticketing.
  - destruct (result (post_incident _ _ _ _)); constructor.
Qed.

(** How [handle_incident] ends. *)
Lemma handle_incident_result :
  result (handle_incident config network oc error_dict)
  = match result (get_incident config network oc) with
    | Raises e => Raises e
    | Returns v =>
        match (if Py.truthy v
               then result (update_incident config network oc error_dict v)
               else result (post_incident config network oc error_dict)) with
        | Returns _ => Returns tt
        | Raises e => Raises e
        end
    end.
Proof.
  rewrite handle_incident_eq, result_bind. cbn [emit result snd].
  rewrite result_bind.
  destruct (result (get_incident config network oc)) as [v | e];
    [|reflexivity].
  destruct (Py.truthy v); rewrite result_bind.
  - destruct (result (update_incident _ _ _ _ _)); reflexivity.
  - destruct (result (post_incident _ _ _ _)); reflexivity.
Qed.

End TicketingEvents.

(** ** What the reporter logs, stores and mails *)

Section ReporterEffects.

Variable config : Config.
Variable network : Request -> outcome Response.
Variable format_exc : string.
Variable message : string.
Variable error_count : PyVal.
Variable error : PyObj.
Variable queue_element : option QueueElement.
Variable oc : OrchestratorConnection.

Let incident : M unit :=
  handle_incident config network oc
    (make_error_dict format_exc message error_count error).

Lemma escalation_trace_split :
  trace (escalation config network format_exc message error_count error oc)
  = ([EvLogTrace "ApplicationException caught. Handling ServiceNow incident."]
     ++ trace incident
     ++ match result incident with
        | Returns _ => [EvLogTrace "ServiceNow incident handled."]
        | Raises e =>
            [EvPrint ("Failed to create ServiceNow incident: " ++ exc_str e);
             EvLogError ("Failed to create ServiceNow incident. error_msg: "
                         ++ error_msg format_exc message error_count error)]
        end)%list.
Proof. rewrite escalation_eq. reflexivity. Qed.

Lemma escalation_side_effects :
  let t := trace (escalation config network format_exc message error_count
                    error oc) in
  status_updates t = [] /\ screenshots t = [] /\ requests t = requests (trace incident).
Proof.
  intros t. subst t. rewrite escalation_trace_split.
  rewrite !status_updates_app, !screenshots_app, !requests_app.
  destruct (ticketing_silent _ (handle_incident_ticketing config network oc
              (make_error_dict format_exc message error_count error)))
    as (_ & _ & Hs & Hm).
  fold incident in Hs, Hm. rewrite Hs, Hm.
  destruct (result incident); cbn; now rewrite app_nil_r.
Qed.

Lemma escalation_logs :
  let t := trace (escalation config network format_exc message error_count
                    error oc) in
  error_logs t
  = match result incident with
    | Returns _ => []
    | Raises _ => ["Failed to create ServiceNow incident. error_msg: "
                   ++ error_msg format_exc message error_count error]
    end
  /\ trace_logs t
     = ("ApplicationException caught. Handling ServiceNow incident."
        :: match result incident with
           | Returns _ => ["ServiceNow incident handled."]
           | Raises _ => []
           end).
Proof.
  intros t. subst t. rewrite escalation_trace_split.
  rewrite !error_logs_app, !trace_logs_app.
  destruct (ticketing_silent _ (handle_incident_ticketing config network oc
              (make_error_dict format_exc message error_count error)))
    as (He & Ht & _ & _).
  fold incident in He, Ht. rewrite He, Ht.
  destruct (result incident); split; reflexivity.
Qed.

End ReporterEffects.

(** X1: whatever the ticketing API does, a run of [handle_error] begins with
    its report (the error log entry, the queue element's status, the
    screenshot email), which does not depend on the API; every request comes
    after it, and nothing after it touches the queue element or sends
    mail. *)
Theorem report_precedes_escalation
    (config : Config) (network : Request -> outcome Response)
    (format_exc message : string) (error_count : PyVal) (error : PyObj)
    (queue_element : option QueueElement) (oc : OrchestratorConnection) :
  exists rest,
    trace (handle_error config network format_exc message error_count error
             queue_element oc)
    = (report_events config format_exc message error_count error queue_element
         oc ++ rest)%list
    /\ requests (report_events config format_exc message error_count error
                   queue_element oc) = []
    /\ status_updates rest = []
    /\ screenshots rest = [].
Proof.
  eexists. split; [apply handle_error_trace|].
  split; [apply report_events_quiet|].
  destruct (escalates config message error_count); [|split; reflexivity].
  destruct (escalation_side_effects config network format_exc message
              error_count error oc) as (Hs & Hm & _).
  split; assumption.
Qed.

(** X2: when a queue element is given, [handle_error] sets its status
    exactly once, to [FAILED] with the message it logged, whatever the
    message category, the error and the ticketing API are; without a queue
    element it sets no status. *)
Theorem queue_element_failed_exactly_once
    (config : Config) (network : Request -> outcome Response)
    (format_exc message : string) (error_count : PyVal) (error : PyObj)
    (queue_element : option QueueElement) (oc : OrchestratorConnection) :
  status_updates
    (trace (handle_error config network format_exc message error_count error
              queue_element oc))
  = match queue_element with
    | Some q => [(id q, FAILED,
                  error_msg format_exc message error_count error)]
    | None => []
    end.
Proof.
  rewrite handle_error_trace, status_updates_app.
  assert (Hrest : status_updates
                    (if escalates config message error_count
                     then trace (escalation config network format_exc message
                                   error_count error oc)
                     else []) = []).
  { destruct (escalates config message error_count); [|reflexivity].
    apply (escalation_side_effects config network format_exc message
             error_count error oc). }
  rewrite Hrest, app_nil_r. unfold report_events.
  destruct queue_element, (Exc.ne_class error BusinessError); reflexivity.
Qed.

(** X3: [handle_error] writes one error log entry, the report, and a second
    one, the failure notice with the report appended, exactly when it
    escalated and [handle_incident] raised. *)
Theorem error_log_entries
    (config : Config) (network : Request -> outcome Response)
    (format_exc message : string) (error_count : PyVal) (error : PyObj)
    (queue_element : option QueueElement) (oc : OrchestratorConnection) :
  error_logs
    (trace (handle_error config network format_exc message error_count error
              queue_element oc))
  = (error_msg format_exc message error_count error
     :: if escalates config message error_count
        then match result (handle_incident config network oc
                             (make_error_dict format_exc message error_count
                                error)) with
             | Returns _ => []
             | Raises _ =>
                 ["Failed to create ServiceNow incident. error_msg: "
                  ++ error_msg format_exc message error_count error]
             end
        else []).
Proof.
  rewrite handle_error_trace, error_logs_app.
  assert (Hrep : error_logs (report_events config format_exc message
                               error_count error queue_element oc)
                 = [error_msg format_exc message error_count error]).
  { unfold report_events.
    destruct queue_element, (Exc.ne_class error BusinessError); reflexivity. }
  rewrite Hrep. cbn [app].
  destruct (escalates config message error_count); [|reflexivity].
  now rewrite (proj1 (escalation_logs config network format_exc message
                        error_count error oc)).
Qed.

(** X4: [handle_error] sends at most one screenshot email, to the address
    stored under [config.ERROR_EMAIL], with the error and the process name;
    it sends none only when [error] is the class object [BusinessError]
    itself.  The ticketing API has no influence on it. *)
Theorem screenshot_sent_at_most_once
    (config : Config) (network : Request -> outcome Response)
    (format_exc message : string) (error_count : PyVal) (error : PyObj)
    (queue_element : option QueueElement) (oc : OrchestratorConnection) :
  screenshots
    (trace (handle_error config network format_exc message error_count error
              queue_element oc))
  = match error with
    | Class BusinessError => []
    | _ => [(get_constant oc (ERROR_EMAIL config), error, process_name oc)]
    end.
Proof.
  rewrite handle_error_trace, screenshots_app.
  assert (Hrest : screenshots
                    (if escalates config message error_count
                     then trace (escalation config network format_exc message
                                   error_count error oc)
                     else []) = []).
  { destruct (escalates config message error_count); [|reflexivity].
    apply (escalation_side_effects config network format_exc message
             error_count error oc). }
  rewrite Hrest, app_nil_r. unfold report_events.
  destruct queue_element; destruct error as [e | []]; reflexivity.
Qed.

(** ** The requests of one escalation *)

Lemma read_lookup_truthy (resp : Response) (v : PyVal) :
  result (read_lookup resp) = Returns v ->
  Py.truthy v = true ->
  status_code resp = 200%Z
  /\ exists body first rest,
       json resp = Returns (PyDict body)
       /\ dict_get body "result" (PyList []) = PyList (PyDict first :: rest)
       /\ dict_get first "sys_id" PyNone = v.
Proof.
  unfold read_lookup, response_json.
  destruct (Z.eqb_spec (status_code resp) 200) as [Hst | Hst];
    [|cbn; intros [= <-]; discriminate].
  destruct (json resp) as [body | e]; [|cbn; discriminate].
  destruct body as [| | | | | body]; cbn; try discriminate.
  destruct (dict_get body "result" (PyList [])) as [| b | z | s | l | d] eqn:Hres;
    cbn.
  - intros [= <-]; discriminate.
  - destruct b; cbn; [discriminate | intros [= <-]; discriminate].
  - destruct (z =? 0)%Z; cbn; [intros [= <-]; discriminate | discriminate].
  - destruct s as [|c s]; cbn; [intros [= <-]; discriminate | discriminate].
  - destruct l as [|x l]; cbn; [intros [= <-]; discriminate|].
    destruct x as [| | | | | first]; cbn; try discriminate.
    intros [= <-] _. split; [exact Hst|].
    exists body, first, l. repeat split. exact Hres.
  - destruct d; cbn; [intros [= <-]; discriminate | discriminate].
Qed.

(** X5: every run of [handle_incident] issues the lookup request first and
    then at most one more request: an update or a create, never both. *)
Theorem one_lookup_then_at_most_one_write
    (config : Config) (network : Request -> outcome Response)
    (oc : OrchestratorConnection) (error_dict : list (string * PyVal)) :
  let t := trace (handle_incident config network oc error_dict) in
  hd_error (requests t) = Some (lookup_request config oc)
  /\ sent GET t = [lookup_request config oc]
  /\ (List.length (sent PUT t) + List.length (sent POST t) <= 1)%nat
  /\ (List.length (requests t) <= 2)%nat.
Proof.
  intros t. subst t. unfold sent.
  destruct (handle_incident_requests config network oc error_dict)
    as [-> | [(v & ->) | ->]]; cbn; repeat split; lia.
Qed.

(** X6: when the lookup request raises, or is answered with status 200 and
    a body that [response.json()] cannot parse, [handle_incident] raises
    that exception and issues no update and no create request (a reply
    with another status, in contrast, leads to a create request). *)
Theorem unreadable_lookup_stops_the_escalation
    (config : Config) (network : Request -> outcome Response)
    (oc : OrchestratorConnection) (error_dict : list (string * PyVal))
    (e : PyExc) :
  network (lookup_request config oc) = Raises e
  \/ (exists resp,
        network (lookup_request config oc) = Returns resp
        /\ status_code resp = 200%Z /\ json resp = Raises e) ->
  result (handle_incident config network oc error_dict) = Raises e
  /\ requests (trace (handle_incident config network oc error_dict))
     = [lookup_request config oc].
Proof.
  intros H.
  assert (Hg : get_incident config network oc
               = ([EvCall "get_incident"; EvRequest (lookup_request config oc)],
                  Raises e)).
  { rewrite get_incident_eq.
    destruct H as [Hn | (resp & Hn & Hst & Hj)]; rewrite Hn; [reflexivity|].
    cbn [bind]. unfold read_lookup, response_json. now rewrite Hst, Hj. }
  split.
  - rewrite handle_incident_result, Hg. reflexivity.
  - rewrite handle_incident_eq, Hg. reflexivity.
Qed.

Lemma unreadable_lookup_stops_the_escalation_witness :
  let page := {| status_code := 200; text := "<html>Sign in</html>";
                 json := Raises {| exc_class := OtherException "requests.exceptions.JSONDecodeError";
                                   exc_str := "Expecting value" |} |} in
  requests (trace (handle_incident Sample.config (Sample.always page)
                     Sample.oc Sample.error_dict))
  = [lookup_request Sample.config Sample.oc].
Proof.
  intros page.
  exact (proj2 (unreadable_lookup_stops_the_escalation Sample.config
                  (Sample.always page) Sample.oc Sample.error_dict
                  {| exc_class := OtherException "requests.exceptions.JSONDecodeError";
                     exc_str := "Expecting value" |}
                  (or_intror (ex_intro _ page
                     (conj eq_refl (conj eq_refl eq_refl)))))).
Defined.

(** X7: when the lookup is answered with status 200 and a result list whose
    first entry is not an object, [get_incident] raises [AttributeError]
    (the entry has no [get]) after the lookup, and [handle_incident] raises
    it too without issuing an update or a create request. *)
Theorem first_result_not_an_object_raises
    (config : Config) (network : Request -> outcome Response)
    (oc : OrchestratorConnection) (error_dict : list (string * PyVal))
    (resp : Response) (body : list (string * PyVal)) (first : PyVal)
    (rest : list PyVal) :
  network (lookup_request config oc) = Returns resp ->
  status_code resp = 200%Z ->
  json resp = Returns (PyDict body) ->
  dict_get body "result" (PyList []) = PyList (first :: rest) ->
  (forall d, first <> PyDict d) ->
  let e := {| exc_class := AttributeError;
              exc_str := "'" ++ Py.type_name first
                         ++ "' object has no attribute 'get'" |} in
  result (get_incident config network oc) = Raises e
  /\ result (handle_incident config network oc error_dict) = Raises e
  /\ requests (trace (handle_incident config network oc error_dict))
     = [lookup_request config oc].
Proof.
  intros Hn Hst Hj Hres Hfirst e.
  assert (Hg : get_incident config network oc
               = ([EvCall "get_incident"; EvRequest (lookup_request config oc)],
                  Raises e)).
  { rewrite get_incident_eq, Hn. cbn [bind].
    unfold read_lookup, response_json. rewrite Hst, Hj. cbn. rewrite Hres.
    destruct first; cbn; try reflexivity. now destruct (Hfirst d). }
  split; [now rewrite Hg|]. split.
  - rewrite handle_incident_result, Hg. reflexivity.
  - rewrite handle_incident_eq, Hg. reflexivity.
Qed.

Lemma first_result_not_an_object_raises_witness :
  let resp := Sample.reply 200
                (PyDict [("result", PyList [PyStr "INC0010001"])]) in
  result (handle_incident Sample.config (Sample.always resp) Sample.oc
            Sample.error_dict)
  = Raises {| exc_class := AttributeError;
              exc_str := "'str' object has no attribute 'get'" |}.
Proof.
  intros resp.
  refine (proj1 (proj2 (first_result_not_an_object_raises Sample.config
                          (Sample.always resp) Sample.oc Sample.error_dict
                          resp [("result", PyList [PyStr "INC0010001"])]
                          (PyStr "INC0010001") []
                          eq_refl eq_refl eq_refl eq_refl _))).
  intros d. discriminate.
Defined.

(** X8: [handle_incident] issues an update request only against an id the
    lookup reply carried: if an update request is sent, the lookup was
    answered with status 200 and a result list whose first entry is an
    object with a truthy [sys_id], and the one update request is for that
    [sys_id]. *)
Theorem update_only_for_an_id_from_the_lookup
    (config : Config) (network : Request -> outcome Response)
    (oc : OrchestratorConnection) (error_dict : list (string * PyVal)) :
  sent PUT (trace (handle_incident config network oc error_dict)) <> [] ->
  exists resp body first rest sys_id,
    network (lookup_request config oc) = Returns resp
    /\ status_code resp = 200%Z
    /\ json resp = Returns (PyDict body)
    /\ dict_get body "result" (PyList []) = PyList (PyDict first :: rest)
    /\ Py.lookup "sys_id" first = Some sys_id
    /\ Py.truthy sys_id = true
    /\ sent PUT (trace (handle_incident config network oc error_dict))
       = [update_request config oc error_dict sys_id].
Proof.
  intros Hput.
  destruct (result (get_incident config network oc)) as [v | e] eqn:Hr.
  - destruct (Py.truthy v) eqn:Ht.
    + destruct (network (lookup_request config oc)) as [resp | e] eqn:Hn.
      * rewrite (get_incident_result _ _ _ _ Hn) in Hr.
        destruct (read_lookup_truthy resp v Hr Ht)
          as (Hst & body & first & rest & Hj & Hres & Hv).
        assert (Hs : Py.lookup "sys_id" first = Some v).
        { unfold dict_get in Hv.
          destruct (Py.lookup "sys_id" first) as [x|];
            [now subst | subst v; discriminate]. }
        exists resp, body, first, rest, v. repeat split; try assumption.
        apply (sent_handle_incident_updates config network oc error_dict v);
          [|exact Ht].
        rewrite (get_incident_result _ _ _ resp Hn). exact Hr.
      * rewrite get_incident_eq, result_bind, Hn in Hr. discriminate.
    + destruct (sent_handle_incident_creates config network oc error_dict v
                  Hr Ht) as (_ & H & _). now rewrite H in Hput.
  - exfalso. apply Hput.
    assert (Hg : trace (handle_incident config network oc error_dict)
                 = (EvCall "handle_incident"
                    :: trace (get_incident config network oc))).
    { rewrite handle_incident_eq, trace_bind.
      cbn [emit trace result fst snd app].
      rewrite trace_bind, Hr. now rewrite app_nil_r. }
    rewrite Hg. unfold sent. cbn [requests].
    now rewrite get_incident_requests.
Qed.

Lemma update_only_for_an_id_from_the_lookup_witness :
  exists sys_id,
    Py.lookup "sys_id" [("sys_id", PyStr "abc123")] = Some sys_id
    /\ sent PUT (trace (handle_incident Sample.config
                          (Sample.lookup_then Sample.found Sample.updated)
                          Sample.oc Sample.error_dict))
       = [update_request Sample.config Sample.oc Sample.error_dict sys_id].
Proof.
  destruct (update_only_for_an_id_from_the_lookup Sample.config
              (Sample.lookup_then Sample.found Sample.updated)
              Sample.oc Sample.error_dict)
    as (resp & body & first & rest & sys_id & Hn & _ & Hj & Hres & Hs & _ & Hp).
  - vm_compute. discriminate.
  - exists sys_id. split; [|exact Hp].
    vm_compute in Hn. injection Hn as <-.
    vm_compute in Hj. injection Hj as <-.
    vm_compute in Hres. injection Hres as <- <-.
    exact Hs.
Defined.

(** X9: when the lookup is answered with status 200 and an object whose
    [result] is missing or falsy ([null], an empty list, object or string,
    [0], [false]), [get_incident] prints nothing and returns [None], and
    [handle_incident] issues the create request and no update request. *)
Theorem falsy_result_creates
    (config : Config) (network : Request -> outcome Response)
    (oc : OrchestratorConnection) (error_dict : list (string * PyVal))
    (resp : Response) (body : list (string * PyVal)) :
  network (lookup_request config oc) = Returns resp ->
  status_code resp = 200%Z ->
  json resp = Returns (PyDict body) ->
  Py.truthy (dict_get body "result" (PyList [])) = false ->
  let t := trace (handle_incident config network oc error_dict) in
  get_incident config network oc
  = ([EvCall "get_incident"; EvRequest (lookup_request config oc)],
     Returns PyNone)
  /\ sent POST t = [create_request config oc error_dict]
  /\ sent PUT t = [].
Proof.
  intros Hn Hst Hj Hres t.
  assert (Hg : get_incident config network oc
               = ([EvCall "get_incident"; EvRequest (lookup_request config oc)],
                  Returns PyNone)).
  { rewrite get_incident_eq, Hn. cbn [bind].
    unfold read_lookup, response_json. rewrite Hst, Hj. cbn.
    now rewrite Hres. }
  split; [exact Hg|].
  assert (Hr : result (get_incident config network oc) = Returns PyNone)
    by now rewrite Hg.
  destruct (sent_handle_incident_creates config network oc error_dict
              PyNone Hr eq_refl) as (_ & Hput & Hpost & _).
  split; assumption.
Qed.

Lemma falsy_result_creates_witness :
  let resp := Sample.reply 200 (PyDict [("error", PyStr "no result")]) in
  sent POST (trace (handle_incident Sample.config
                      (Sample.lookup_then resp Sample.updated)
                      Sample.oc Sample.error_dict))
  = [create_request Sample.config Sample.oc Sample.error_dict].
Proof.
  intros resp.
  exact (proj1 (proj2 (falsy_result_creates Sample.config
                         (Sample.lookup_then resp Sample.updated) Sample.oc
                         Sample.error_dict resp
                         [("error", PyStr "no result")]
                         eq_refl eq_refl eq_refl eq_refl))).
Defined.

(** X10: every request of a run of [handle_incident], and so of
    [handle_error], authenticates with the username and password stored
    under [config.SERVICE_NOW_API_PROD_USER] and carries the JSON
    [Content-Type] and [Accept] headers; the lookup has no body, an update
    or create request has one. *)
Theorem requests_use_the_stored_credentials
    (config : Config) (network : Request -> outcome Response)
    (format_exc message : string) (error_count : PyVal) (error : PyObj)
    (queue_element : option QueueElement) (oc : OrchestratorConnection)
    (error_dict : list (string * PyVal)) :
  let well_formed r :=
    auth r = (username (get_credential oc (SERVICE_NOW_API_PROD_USER config)),
              password (get_credential oc (SERVICE_NOW_API_PROD_USER config)))
    /\ headers r = [("Content-Type", "application/json");
                    ("Accept", "application/json")]
    /\ (json_body r = None <-> method r = GET) in
  Forall well_formed
    (requests (trace (handle_incident config network oc error_dict)))
  /\ Forall well_formed
       (requests (trace (handle_error config network format_exc message
                           error_count error queue_element oc))).
Proof.
  intros well_formed.
  assert (H : forall d,
             Forall well_formed
               (requests (trace (handle_incident config network oc d)))).
  { intros d.
    destruct (handle_incident_requests config network oc d)
      as [-> | [(v & ->) | ->]];
      repeat constructor; cbn; try reflexivity;
      intros; discriminate. }
  split; [apply H|].
  rewrite handle_error_requests.
  destruct (escalates config message error_count); [apply H | constructor].
Qed.

Lemma occurs_in_middle (a sub b : string) : occurs_in sub (a ++ sub ++ b).
Proof. now exists a, b. Qed.

Lemma occurs_in_prefixed (a sub s : string) :
  occurs_in sub s -> occurs_in sub (a ++ s).
Proof.
  intros (x & y & ->). exists (a ++ x), y. now rewrite append_assoc.
Qed.

Lemma occurs_in_end (a sub : string) : occurs_in sub (a ++ sub).
Proof.
  exists a, "". f_equal. clear a. induction sub as [|c sub IH]; cbn;
    [reflexivity | now rewrite <- IH].
Qed.

Ltac find_occurrence :=
  repeat first [apply occurs_in_middle | apply occurs_in_end
               | apply occurs_in_prefixed].

(** X11: the incident [post_incident] creates has a short description that
    contains the process name, the text the lookup of [get_incident]
    searches short descriptions for, the category [Fejl] and the contact
    type [integration]. *)
Theorem created_incident_names_the_process
    (config : Config) (network : Request -> outcome Response)
    (oc : OrchestratorConnection) (error_dict : list (string * PyVal)) :
  exists r short_description,
    requests (trace (post_incident config network oc error_dict)) = [r]
    /\ method r = POST
    /\ body_text r "short_description" = Some short_description
    /\ occurs_in (process_name oc) short_description
    /\ lookup_query (process_name oc)
       = "short_descriptionLIKE" ++ process_name oc
         ++ "^active=true^state!=6^ORDERBYDESCsys_created_on"
    /\ body_text r "category" = Some "Fejl"
    /\ body_text r "contact_type" = Some "integration".
Proof.
  exists (create_request config oc error_dict).
  eexists. split; [apply post_incident_requests|].
  split; [reflexivity|]. split; [reflexivity|].
  split; [apply occurs_in_middle|]. repeat split.
Qed.

(** X12: the comment of an update request and the description of a create
    request that a run of [handle_error] issues contain the text of the
    error and the whole traceback, not the shortened message that is
    logged. *)
Theorem ticket_carries_the_whole_error
    (config : Config) (network : Request -> outcome Response)
    (format_exc message : string) (error_count : PyVal) (error : PyObj)
    (queue_element : option QueueElement) (oc : OrchestratorConnection) :
  Forall (fun r =>
            method r = GET
            \/ exists field s,
                 (field = "comments" \/ field = "description")
                 /\ body_text r field = Some s
                 /\ occurs_in (Exc.str error) s
                 /\ occurs_in format_exc s)
         (requests (trace (handle_error config network format_exc message
                             error_count error queue_element oc))).
Proof.
  rewrite handle_error_requests.
  destruct (escalates config message error_count); [|constructor].
  destruct (handle_incident_requests config network oc
              (make_error_dict format_exc message error_count error))
    as [-> | [(v & ->) | ->]].
  - apply Forall_cons; [now left | constructor].
  - apply Forall_cons; [now left|]. apply Forall_cons; [right | constructor].
    exists "comments". eexists. split; [now left|].
    split; [reflexivity|]. unfold update_comment.
    change (dict_get (make_error_dict format_exc message error_count error)
              "message" (PyStr "")) with (PyStr (Exc.str error)).
    change (dict_get (make_error_dict format_exc message error_count error)
              "trace" (PyStr "")) with (PyStr format_exc).
    cbn [Py.str]. split; find_occurrence.
  - apply Forall_cons; [now left|]. apply Forall_cons; [right | constructor].
    exists "description". eexists. split; [now right|].
    split; [reflexivity|].
    change (dict_get (make_error_dict format_exc message error_count error)
              "message" (PyStr "")) with (PyStr (Exc.str error)).
    change (dict_get (make_error_dict format_exc message error_count error)
              "trace" (PyStr "")) with (PyStr format_exc).
    cbn [Py.str]. split; find_occurrence.
Qed.

(** ** Replies to an update or a create *)

Section Writes.

Variable config : Config.
Variable network : Request -> outcome Response.
Variable oc : OrchestratorConnection.
Variable error_dict : list (string * PyVal).

Lemma write_incident_result (w : Write) (resp : Response) :
  network (write_request config oc error_dict w) = Returns resp ->
  result (write_incident config network oc error_dict w)
  = result (read_result resp).
Proof.
  intros Hn. destruct w as [sys_id |]; cbn [write_incident write_request] in *.
  - rewrite update_incident_eq, result_bind. cbn [result snd]. now rewrite Hn.
  - rewrite post_incident_eq, result_bind. cbn [result snd]. rewrite Hn.
    now rewrite !result_bind.
Qed.

Lemma write_incident_requests (w : Write) :
  requests (trace (write_incident config network oc error_dict w))
  = [write_request config oc error_dict w].
Proof.
  destruct w; [apply update_incident_requests | apply post_incident_requests].
Qed.

End Writes.

(** X13: when the update or create request is answered with status 200 and
    a body that [response.json()] cannot parse, [update_incident] and
    [post_incident] raise the parser's exception, after the one request has
    been sent (a reply with another status, in contrast, is printed and
    gives [None]). *)
Theorem accepted_write_with_unreadable_body_raises
    (config : Config) (network : Request -> outcome Response)
    (oc : OrchestratorConnection) (error_dict : list (string * PyVal))
    (w : Write) (resp : Response) (e : PyExc) :
  network (write_request config oc error_dict w) = Returns resp ->
  status_code resp = 200%Z ->
  json resp = Raises e ->
  result (write_incident config network oc error_dict w) = Raises e
  /\ requests (trace (write_incident config network oc error_dict w))
     = [write_request config oc error_dict w].
Proof.
  intros Hn Hst Hj. split; [|apply write_incident_requests].
  rewrite (write_incident_result _ _ _ _ _ _ Hn).
  unfold read_result, response_json. now rewrite Hst, Hj.
Qed.

Lemma accepted_write_with_unreadable_body_raises_witness :
  let no_content := {| status_code := 200; text := "";
                       json := Raises {| exc_class := OtherException "requests.exceptions.JSONDecodeError";
                                         exc_str := "Expecting value" |} |} in
  result (post_incident Sample.config (Sample.always no_content) Sample.oc
            Sample.error_dict)
  = Raises {| exc_class := OtherException "requests.exceptions.JSONDecodeError";
              exc_str := "Expecting value" |}.
Proof.
  intros no_content.
  exact (proj1 (accepted_write_with_unreadable_body_raises Sample.config
                  (Sample.always no_content) Sample.oc Sample.error_dict
                  Create no_content _ eq_refl eq_refl eq_refl)).
Defined.

(** X14: when the update or create request is answered with status 200 and
    a JSON object, [update_incident] and [post_incident] return that
    object's [result], or an empty dictionary when it has none; when the
    body is JSON but not an object they raise [AttributeError]. *)
Theorem accepted_write_returns_the_result
    (config : Config) (network : Request -> outcome Response)
    (oc : OrchestratorConnection) (error_dict : list (string * PyVal))
    (w : Write) (resp : Response) (body : PyVal) :
  network (write_request config oc error_dict w) = Returns resp ->
  status_code resp = 200%Z ->
  json resp = Returns body ->
  result (write_incident config network oc error_dict w)
  = match body with
    | PyDict d =>
        Returns (match Py.lookup "result" d with
                 | Some v => v
                 | None => PyDict []
                 end)
    | _ =>
        Raises {| exc_class := AttributeError;
                  exc_str := "'" ++ Py.type_name body
                             ++ "' object has no attribute 'get'" |}
    end.
Proof.
  intros Hn Hst Hj.
  rewrite (write_incident_result _ _ _ _ _ _ Hn).
  unfold read_result, response_json. rewrite Hst, Hj.
  destruct body; reflexivity.
Qed.

Lemma accepted_write_returns_the_result_witness :
  result (update_incident Sample.config (Sample.always Sample.none_found)
            Sample.oc Sample.error_dict (PyStr "abc123"))
  = Returns (PyList [])
  /\ result (post_incident Sample.config
               (Sample.always (Sample.reply 200 (PyDict []))) Sample.oc
               Sample.error_dict)
     = Returns (PyDict []).
Proof.
  split.
  - exact (accepted_write_returns_the_result Sample.config
             (Sample.always Sample.none_found) Sample.oc Sample.error_dict
             (Update (PyStr "abc123")) Sample.none_found _
             eq_refl eq_refl eq_refl).
  - exact (accepted_write_returns_the_result Sample.config
             (Sample.always (Sample.reply 200 (PyDict []))) Sample.oc
             Sample.error_dict Create (Sample.reply 200 (PyDict [])) _
             eq_refl eq_refl eq_refl).
Defined.

(** X15: when [handle_error] escalates and the update or create request is
    answered with a status other than 200, the run still logs
    [ServiceNow incident handled.] and no second error: the rejected write
    is only printed. *)
Theorem rejected_write_is_logged_as_handled
    (config : Config) (network : Request -> outcome Response)
    (format_exc message : string) (error_count : PyVal) (error : PyObj)
    (queue_element : option QueueElement) (oc : OrchestratorConnection)
    (sys_id : PyVal) (resp : Response) :
  let error_dict := make_error_dict format_exc message error_count error in
  let t := trace (handle_error config network format_exc message error_count
                    error queue_element oc) in
  escalates config message error_count = true ->
  result (get_incident config network oc) = Returns sys_id ->
  network (write_request config oc error_dict
             (if Py.truthy sys_id then Update sys_id else Create))
  = Returns resp ->
  status_code resp <> 200%Z ->
  trace_logs t
  = ["ApplicationException caught. Handling ServiceNow incident.";
     "ServiceNow incident handled."]
  /\ error_logs t = [error_msg format_exc message error_count error]
  /\ In (EvPrint ("Error " ++ Str.of_Z (status_code resp) ++ ": "
                  ++ text resp)) t.
Proof.
  intros error_dict t Hesc Hg Hn Hst.
  assert (Hw : result (write_incident config network oc error_dict
                         (if Py.truthy sys_id then Update sys_id else Create))
               = Returns PyNone).
  { rewrite (write_incident_result _ _ _ _ _ _ Hn).
    now rewrite (read_result_not_200 _ Hst). }
  assert (Hi : result (handle_incident config network oc error_dict)
               = Returns tt).
  { rewrite handle_incident_result, Hg.
    destruct (Py.truthy sys_id); cbn [write_incident] in Hw; now rewrite Hw. }
  subst t. rewrite handle_error_trace, Hesc.
  rewrite trace_logs_app, error_logs_app.
  destruct (escalation_logs config network format_exc message error_count
              error oc) as [He Ht].
  fold error_dict in He, Ht. rewrite Hi in He, Ht. rewrite He, Ht.
  split; [|split].
  - unfold report_events.
    destruct queue_element, (Exc.ne_class error BusinessError); reflexivity.
  - unfold report_events.
    destruct queue_element, (Exc.ne_class error BusinessError); reflexivity.
  - apply in_or_app. right. rewrite escalation_eq. cbn [trace fst].
    right. apply in_or_app. left. fold error_dict.
    assert (Hlast : forall w r,
              network (write_request config oc error_dict w) = Returns r ->
              status_code r <> 200%Z ->
              In (EvPrint (error_line r))
                 (trace (write_incident config network oc error_dict w))).
    { intros w r Hnw Hsw.
      destruct w as [v|]; cbn [write_incident write_request] in *.
      - rewrite update_incident_eq, Hnw. cbn [bind].
        rewrite (read_result_not_200 _ Hsw). cbn. tauto.
      - rewrite post_incident_eq, Hnw. cbn [bind print emit].
        rewrite (read_result_not_200 _ Hsw). cbn. tauto. }
    specialize (Hlast _ _ Hn Hst).
    destruct (Py.truthy sys_id) eqn:Htr; cbn [write_incident] in Hlast.
    + rewrite (handle_incident_updates config network oc error_dict sys_id
                 Hg Htr).
      right. apply in_or_app. now right.
    + rewrite (handle_incident_creates config network oc error_dict sys_id
                 Hg Htr).
      right. apply in_or_app. now right.
Qed.

Lemma rejected_write_is_logged_as_handled_witness :
  let e := Instance {| exc_class := OtherException "RuntimeError";
                       exc_str := "boom" |} in
  let t := trace (handle_error Sample.config
                    (Sample.always Sample.server_error) "Traceback"
                    "ApplicationException" (PyInt 3) e None Sample.oc) in
  trace_logs t
  = ["ApplicationException caught. Handling ServiceNow incident.";
     "ServiceNow incident handled."]
  /\ In (EvPrint "Error 500: Internal Server Error") t.
Proof.
  intros e t.
  destruct (rejected_write_is_logged_as_handled Sample.config
              (Sample.always Sample.server_error) "Traceback"
              "ApplicationException" (PyInt 3) e None Sample.oc
              PyNone Sample.server_error eq_refl eq_refl eq_refl)
    as (Ht & _ & Hp).
  - cbn. discriminate.
  - split; [exact Ht | exact Hp].
Defined.

(** ** The logged message *)

(** X16: shortening never lengthens a message, and a shortened message is
    left as it is when shortened again. *)
Theorem shorten_contracts_and_is_idempotent (s : string) :
  (String.length (shorten s) <= String.length s)%nat
  /\ shorten (shorten s) = shorten s.
Proof.
  destruct (shorten_length s) as [Hle H998].
  destruct (Nat.ltb_spec 1000 (String.length s)) as [H | H].
  - specialize (H998 H). split; [lia|]. apply shorten_short. lia.
  - rewrite (shorten_short s H). split; [lia | now apply shorten_short].
Qed.

Section PyVal_induction.

Variable P : PyVal -> Prop.
Hypothesis HNone : P PyNone.
Hypothesis HBool : forall b, P (PyBool b).
Hypothesis HInt : forall z, P (PyInt z).
Hypothesis HStr : forall s, P (PyStr s).
Hypothesis HList : forall l, Forall P l -> P (PyList l).
Hypothesis HDict : forall d, Forall (fun kv => P (snd kv)) d -> P (PyDict d).

Fixpoint PyVal_nested_ind (v : PyVal) : P v :=
  match v with
  | PyNone => HNone
  | PyBool b => HBool b
  | PyInt z => HInt z
  | PyStr s => HStr s
  | PyList l =>
      HList l
        ((fix go (l : list PyVal) : Forall P l :=
            match l with
            | [] => Forall_nil P
            | x :: l' => Forall_cons x (PyVal_nested_ind x) (go l')
            end) l)
  | PyDict d =>
      HDict d
        ((fix go (d : list (string * PyVal))
            : Forall (fun kv => P (snd kv)) d :=
            match d with
            | [] => Forall_nil _
            | kv :: d' =>
                Forall_cons (P := fun kv => P (snd kv)) kv
                  (PyVal_nested_ind (snd kv)) (go d')
            end) d)
  end.

End PyVal_induction.

Lemma no_control_app (a b : string) :
  no_control (a ++ b) = no_control a && no_control b.
Proof.
  induction a as [|c a IH]; [reflexivity|].
  cbn. now rewrite IH, andb_assoc.
Qed.

Lemma no_control_substring (n m : nat) (s : string) :
  no_control s = true -> no_control (substring n m s) = true.
Proof.
  revert n m. induction s as [|c s IH]; intros n m H.
  - destruct n, m; reflexivity.
  - cbn in H. apply andb_true_iff in H as [Hc Hs].
    destruct n as [|n]; cbn.
    + destruct m as [|m]; [reflexivity|]. cbn. rewrite Hc. now apply IH.
    + now apply IH.
Qed.

Lemma no_control_of_Z (z : Z) : no_control (Str.of_Z z) = true.
Proof.
  assert (Hu : forall d, no_control (NilEmpty.string_of_uint d) = true)
    by (induction d; cbn; assumption || reflexivity).
  assert (Hz : forall d, no_control (NilZero.string_of_uint d) = true)
    by (intros d; destruct d; try reflexivity; apply (Hu (_ d))).
  unfold Str.of_Z, NilZero.string_of_int.
  destruct (Z.to_int z); [apply Hz | cbn; apply Hz].
Qed.

Lemma no_control_escape (s : string) : no_control (Json.escape s) = true.
Proof.
  induction s as [|c s IH]; [reflexivity|].
  cbn [Json.escape]. rewrite no_control_app, IH, andb_true_r.
  destruct c as [[] [] [] [] [] [] [] []]; reflexivity.
Qed.

Lemma no_control_encode (s : string) :
  no_control (Json.encode_basestring s) = true.
Proof.
  unfold Json.encode_basestring. cbn [no_control].
  now rewrite no_control_app, no_control_escape.
Qed.

Lemma no_control_dumps (v : PyVal) : no_control (Json.dumps v) = true.
Proof.
  induction v as [| b | z | s | l Hl | d Hd] using PyVal_nested_ind.
  - reflexivity.
  - destruct b; reflexivity.
  - apply no_control_of_Z.
  - apply no_control_encode.
  - cbn [Json.dumps]. rewrite !no_control_app. cbn [no_control].
    rewrite andb_true_r. cbn [andb Nat.leb nat_of_ascii].
    induction Hl as [|x l Hx Hl IH]; [reflexivity|].
    rewrite no_control_app, Hx. cbn [andb].
    destruct l as [|y l]; [reflexivity|].
    rewrite no_control_app. exact IH.
  - cbn [Json.dumps]. rewrite !no_control_app. cbn [no_control].
    rewrite andb_true_r. cbn [andb Nat.leb nat_of_ascii].
    induction Hd as [|[k x] d Hx Hd IH]; [reflexivity|].
    rewrite !no_control_app, no_control_encode. cbn [snd] in Hx.
    rewrite Hx. cbn [andb].
    destruct d as [|y d]; [reflexivity|].
    rewrite no_control_app. exact IH.
Qed.

(** X17: the message [handle_error] logs and stores has no control
    character, whatever the error text and the traceback contain: their
    newlines and tabs are escaped by the serialization, and shortening adds
    none.  It is a single line. *)
Theorem logged_message_has_no_control_character
    (format_exc message : string) (error_count : PyVal) (error : PyObj) :
  no_control (error_msg format_exc message error_count error) = true.
Proof.
  unfold error_msg.
  set (s := Json.dumps _).
  assert (Hs : no_control s = true) by apply no_control_dumps.
  destruct (Nat.ltb_spec 1000 (String.length s)) as [H | H].
  - rewrite (shorten_long s H), !no_control_app.
    now rewrite !no_control_substring by exact Hs.
  - now rewrite (shorten_short s H).
Qed.

Example traceback_newlines_are_escaped :
  let tb := "Traceback (most recent call last):" ++ nl ++ "  File ..." ++ nl in
  no_control tb = false
  /\ no_control (error_msg tb "ApplicationException" (PyInt 3)
                   (Instance {| exc_class := OtherException "RuntimeError";
                                exc_str := "a" ++ nl ++ "b" |})) = true.
Proof. split; vm_compute; reflexivity. Qed.

(** ** More on the escalation test *)

(** X20: when [config.MAX_RETRY_COUNT] is an integer, an [error_count] that
    is [None] or a string, the two kinds the signature of [handle_error]
    names, never escalates, whatever the message: [handle_incident] is not
    invoked and no request is issued, even if the string spells the same
    number. *)
Theorem annotated_error_count_never_reaches_an_integer_maximum
    (config : Config) (network : Request -> outcome Response)
    (format_exc message : string) (error_count : PyVal) (error : PyObj)
    (queue_element : option QueueElement) (oc : OrchestratorConnection)
    (maximum : Z) :
  MAX_RETRY_COUNT config = PyInt maximum ->
  (error_count = PyNone \/ exists s, error_count = PyStr s) ->
  let t := trace (handle_error config network format_exc message error_count
                    error queue_element oc) in
  called "handle_incident" t = false
  /\ requests t = []
  /\ t = report_events config format_exc message error_count error
           queue_element oc.
Proof.
  intros Hmax Hcount t.
  assert (Hesc : escalates config message error_count = false).
  { unfold escalates. rewrite Hmax.
    destruct Hcount as [-> | (s & ->)]; cbn; apply andb_false_r. }
  assert (Ht : t = report_events config format_exc message error_count error
                     queue_element oc).
  { subst t. rewrite handle_error_trace, Hesc. apply app_nil_r. }
  rewrite Ht.
  destruct (report_events_quiet config format_exc message error_count error
              queue_element oc) as [Hr Hc].
  repeat split; assumption.
Qed.

Lemma annotated_error_count_never_reaches_an_integer_maximum_witness :
  requests (trace (handle_error Sample.config
                     (Sample.lookup_then Sample.found Sample.updated)
                     "Traceback" "ApplicationException" (PyStr "3")
                     (Instance {| exc_class := OtherException "RuntimeError";
                                  exc_str := "boom" |})
                     None Sample.oc)) = [].
Proof.
  exact (proj1 (proj2
    (annotated_error_count_never_reaches_an_integer_maximum Sample.config
       (Sample.lookup_then Sample.found Sample.updated) "Traceback"
       "ApplicationException" (PyStr "3")
       (Instance {| exc_class := OtherException "RuntimeError";
                    exc_str := "boom" |})
       None Sample.oc 3 eq_refl (or_intror (ex_intro _ "3" eq_refl))))).
Defined.

(** ** The size of the log entries *)

(** X21: every error log entry of a run of [handle_error] is bounded: the
    report has at most 1000 characters, and the failure notice, which
    prefixes the report with 49 characters, at most 1049. *)
Theorem error_log_entries_are_bounded
    (config : Config) (network : Request -> outcome Response)
    (format_exc message : string) (error_count : PyVal) (error : PyObj)
    (queue_element : option QueueElement) (oc : OrchestratorConnection) :
  (String.length (error_msg format_exc message error_count error) <= 1000)%nat
  /\ Forall (fun entry => (String.length entry <= 1049)%nat)
            (error_logs (trace (handle_error config network format_exc
                                  message error_count error queue_element
                                  oc))).
Proof.
  assert (Hm : (String.length (error_msg format_exc message error_count error)
                <= 1000)%nat).
  { unfold error_msg. set (s := Json.dumps _).
    destruct (shorten_length s) as [_ H998].
    destruct (Nat.ltb_spec 1000 (String.length s)) as [H | H].
    - rewrite (H998 H). lia.
    - now rewrite (shorten_short s H). }
  split; [exact Hm|].
  assert (Hlogs : forall l,
            incl l [error_msg format_exc message error_count error;
                    "Failed to create ServiceNow incident. error_msg: "
                    ++ error_msg format_exc message error_count error] ->
            Forall (fun entry => (String.length entry <= 1049)%nat) l).
  { intros l Hl. apply Forall_forall. intros x Hx. apply Hl in Hx.
    destruct Hx as [<- | [<- | []]]; [lia|].
    rewrite length_append. cbn [String.length]. lia. }
  apply Hlogs.
  rewrite handle_error_trace, error_logs_app.
  intros x Hx. apply in_app_or in Hx. destruct Hx as [Hx | Hx].
  - unfold report_events in Hx.
    destruct queue_element, (Exc.ne_class error BusinessError);
      cbn in Hx; destruct Hx as [<- | []]; now left.
  - destruct (escalates config message error_count); [|destruct Hx].
    rewrite (proj1 (escalation_logs config network format_exc message
                      error_count error oc)) in Hx.
    destruct (result (handle_incident _ _ _ _)); [destruct Hx|].
    destruct Hx as [<- | []]. right. now left.
Qed.

